(** * Experiment bucket resolution of discord/experiment.py

    A shallow embedding of the classes of [discord/experiment.py]
    ([ExperimentRollout], [ExperimentPopulation], [ExperimentOverride],
    [HoldoutExperiment], [GuildExperiment], [UserExperiment]) and the
    properties of their bucket resolution.

    Conventions of the embedding:
    - Python [int] is [Z]; Python [str] is [string], read as the UTF-8
      byte sequence that [str.encode()] produces; [Optional[T]] is
      [option T]; a list or tuple is a [list].
    - A [GuildExperiment] is a mutable object that other objects refer to
      (the registry [ConnectionState.guild_experiments], the back-reference
      [ExperimentPopulation.experiment]).  Objects live in a heap indexed by
      locations; the registry maps a name hash to a location.
    - A call returns a value, raises an exception, or (for the recursion
      through holdouts, which need not end) runs out of fuel. *)

From Stdlib Require Import ZArith Bool List Lia.
From stdpp Require Import base option list strings pretty gmap fin_maps.

Open Scope Z_scope.

(** ** Outcomes of a call *)

Inductive exception : Type :=
  | ValueError_name_unset
      (* ValueError('The experiment name must be set to compute the result') *)
  | ValueError_name_mismatch
      (* ValueError('The name provided does not match the experiment hash') *)
  | NotImplementedError_unknown_filter (type : Z).
      (* NotImplementedError(f'Unknown filter type: {type}') *)

Inductive result (A : Type) : Type :=
  | Return (a : A)
  | Raise (e : exception)
  | OutOfFuel.
Arguments Return {A} a.
Arguments Raise {A} e.
Arguments OutOfFuel {A}.

#[global] Instance result_ret : MRet result := fun A a => Return a.

#[global] Instance result_bind : MBind result := fun A B k r =>
  match r with
  | Return a => k a
  | Raise e => Raise e
  | OutOfFuel => OutOfFuel
  end.

(** The call came to an end: it returned or it raised. *)
Definition is_Return_or_Raise {A : Type} (r : result A) : bool :=
  match r with
  | Return _ | Raise _ => true
  | OutOfFuel => false
  end.

(** Python truthiness of an [Optional[str]]: [None] and [''] are falsy. *)
Definition truthy_str (s : option string) : bool :=
  match s with
  | None => false
  | Some s => negb (String.eqb s "")
  end.

(** Python truthiness of an [Optional[int]]: [None] and [0] are falsy. *)
Definition truthy_int (n : option Z) : bool :=
  match n with
  | None => false
  | Some n => negb (n =? 0)
  end.

(** ** The hash primitive *)

Module Murmur.

Definition mask32 (x : Z) : Z := Z.land x 0xFFFFFFFF.

Definition rotl32 (x r : Z) : Z :=
  mask32 (Z.lor (Z.shiftl x r) (Z.shiftr x (32 - r))).

Definition c1 : Z := 0xCC9E2D51.
Definition c2 : Z := 0x1B873593.

Definition scramble (k1 : Z) : Z :=
  mask32 (c2 * rotl32 (mask32 (c1 * k1)) 15).

Definition mix (h1 k1 : Z) : Z :=
  let h1 := Z.lxor h1 (scramble k1) in
  let h1 := rotl32 h1 13 in
  mask32 (h1 * 5 + 0xE6546B64).

(** Consumes the whole 4-byte blocks (little endian) and returns the
    running hash with the 0 to 3 bytes left over. *)
Fixpoint blocks (key : list Z) (h1 : Z) : Z * list Z :=
  match key with
  | b0 :: b1 :: b2 :: b3 :: rest =>
      let k1 :=
        Z.lor (Z.lor (Z.lor (Z.shiftl b3 24) (Z.shiftl b2 16)) (Z.shiftl b1 8)) b0 in
      blocks rest (mix h1 k1)
  | tail => (h1, tail)
  end.

Definition tail (h1 : Z) (rest : list Z) : Z :=
  match rest with
  | [] => h1
  | [b0] => Z.lxor h1 (scramble b0)
  | [b0; b1] => Z.lxor h1 (scramble (Z.lxor (Z.shiftl b1 8) b0))
  | b0 :: b1 :: b2 :: _ =>
      Z.lxor h1 (scramble (Z.lxor (Z.lxor (Z.shiftl b2 16) (Z.shiftl b1 8)) b0))
  end.

Definition fmix (h : Z) : Z :=
  let h := Z.lxor h (Z.shiftr h 16) in
  let h := mask32 (h * 0x85EBCA6B) in
  let h := Z.lxor h (Z.shiftr h 13) in
  let h := mask32 (h * 0xC2B2AE35) in
  Z.lxor h (Z.shiftr h 16).

Fixpoint bytes_of (s : string) : list Z :=
  match s with
  | EmptyString => []
  | String a s' => Z.of_N (Ascii.N_of_ascii a) :: bytes_of s'
  end.

Definition hash_bytes (key : list Z) (seed : Z) : Z :=
  let '(h1, rest) := blocks key seed in
  fmix (Z.lxor (tail h1 rest) (Z.of_nat (length key))).

End Murmur.

(** Modelled from the spec: [discord.utils.murmurhash32] (discord/utils.py, which
    experiment.py imports it from, is not among the embedded files), called everywhere as
    [murmurhash32(s, signed=False)]: the 32-bit x86 MurmurHash3 digest of
    the UTF-8 bytes of [s] with seed 0, as an unsigned value. *)
Definition murmurhash32 (key : string) : Z :=
  Murmur.hash_bytes (Murmur.bytes_of key) 0.

(** The f-string [f'{name}:{id}']. *)
Definition fmt_key (name : string) (id : Z) : string :=
  name +:+ ":" +:+ pretty id.

(** ** Data model *)

(** Locations of [GuildExperiment] objects. *)
Abbreviation loc := nat.

(** The attributes of a [Guild] that the resolution reads. *)
Module Guild.
Record t : Type := {
  id : Z;
  owner_id : option Z;
  features : list string;
  member_count : option Z;
  vanity_url_code : option string;
}.
End Guild.

Module ExperimentRollout.
Record t : Type := {
  bucket : Z;
  ranges : list (Z * Z);
}.
End ExperimentRollout.

(** Modelled from the spec: [ExperimentFilterType] and [try_enum]
    (discord/enums.py is not among the embedded files).  A filter of
    [ExperimentPopulation.filters] is a pair [(type, value)]; this type is
    [try_enum(ExperimentFilterType, type)] together with the parts of
    [value] that [bucket_for] unpacks for that kind.  [unknown] is a type
    number outside the enumeration; [hash_key] is its [str()] rendering. *)
Module ExperimentFilter.
Inductive t : Type :=
  | feature (features : list string)
  | id_range (start : option Z) (end_ : Z)
  | member_count_range (start : option Z) (end_ : Z)
  | ids (ids : list Z)
  | hub_type
  | hash_range (hash_key : string) (target : Z)
  | vanity_url (required : bool)
  | unknown (type : Z).
End ExperimentFilter.

Module ExperimentPopulation.
Record t : Type := {
  experiment : loc;
  filters : list ExperimentFilter.t;
  rollouts : list ExperimentRollout.t;
}.
End ExperimentPopulation.

Module ExperimentOverride.
Record t : Type := {
  bucket : Z;
  ids : list Z;
}.
End ExperimentOverride.

Module HoldoutExperiment.
Record t : Type := {
  dependent : loc;
  name : string;
  bucket : Z;
}.
End HoldoutExperiment.

Module GuildExperiment.
Record t : Type := {
  hash : Z;
  _name : option string;
  revision : Z;
  populations : list ExperimentPopulation.t;
  overrides : list ExperimentOverride.t;
  overrides_formatted : list (list ExperimentPopulation.t);
  holdout : option HoldoutExperiment.t;
  aa_mode : bool;
}.

(** The object after the assignment [self._name = value]. *)
Definition with_name (self : t) (value : option string) : t :=
  {| hash := hash self;
     _name := value;
     revision := revision self;
     populations := populations self;
     overrides := overrides self;
     overrides_formatted := overrides_formatted self;
     holdout := holdout self;
     aa_mode := aa_mode self |}.

Definition blank : t :=
  {| hash := 0; _name := None; revision := 0; populations := [];
     overrides := []; overrides_formatted := []; holdout := None;
     aa_mode := false |}.

#[global] Instance inhabited : Inhabited t := populate blank.
End GuildExperiment.

Module UserExperiment.
Record t : Type := {
  _name : option string;
  hash : Z;
  revision : Z;
  assignment : Z;
  override : Z;
  population : Z;
  _result : option Z;
  aa_mode : bool;
}.

Definition with_name (self : t) (value : option string) : t :=
  {| _name := value;
     hash := hash self;
     revision := revision self;
     assignment := assignment self;
     override := override self;
     population := population self;
     _result := _result self;
     aa_mode := aa_mode self |}.
End UserExperiment.

(** The mutable world: the [GuildExperiment] objects, and the two
    attributes of the one [ConnectionState] ([_state]) that the code reads.
    A location without an object reads as a blank experiment. *)
Record Store : Type := {
  objects : gmap nat GuildExperiment.t;
  guild_experiments : gmap Z nat;
  self_id : Z;
}.

Definition with_objects (st : Store) (objs : gmap nat GuildExperiment.t) : Store :=
  {| objects := objs;
     guild_experiments := guild_experiments st;
     self_id := self_id st |}.

Definition deref (st : Store) (l : loc) : GuildExperiment.t := objects st !!! l.

(** ** ExperimentRollout *)

(** [for start, end in self.ranges: if start <= item <= end: return True] *)
Fixpoint ranges_contain (ranges : list (Z * Z)) (item : Z) : bool :=
  match ranges with
  | [] => false
  | (start, end_) :: ranges' =>
      if (start <=? item) && (item <=? end_) then true
      else ranges_contain ranges' item
  end.

Definition ExperimentRollout___contains__ (self : ExperimentRollout.t) (item : Z) : bool :=
  ranges_contain (ExperimentRollout.ranges self) item.

(** ** GuildExperiment: the methods that read only [self] *)

Definition GuildExperiment___hash__ (self : GuildExperiment.t) : Z :=
  GuildExperiment.hash self.

Definition GuildExperiment___eq__ (self other : GuildExperiment.t) : bool :=
  GuildExperiment.hash self =? GuildExperiment.hash other.

Definition GuildExperiment_name (self : GuildExperiment.t) : option string :=
  GuildExperiment._name self.

(** The setter of [name]; the result is the object after the call. *)
Definition GuildExperiment_name_setter (self : GuildExperiment.t) (value : option string)
  : result GuildExperiment.t :=
  match value with
  | Some v =>
      if negb (truthy_str value) then Return (GuildExperiment.with_name self None)
      else if negb (murmurhash32 v =? GuildExperiment.hash self) then
        Raise ValueError_name_mismatch
      else Return (GuildExperiment.with_name self (Some v))
  | None => Return (GuildExperiment.with_name self None)
  end.

Definition GuildExperiment_result_for (self : GuildExperiment.t) (guild : Guild.t) : result Z :=
  match GuildExperiment_name self with
  | Some name =>
      if negb (truthy_str (Some name)) then Raise ValueError_name_unset
      else Return (murmurhash32 (fmt_key name (Guild.id guild)) mod 10000)
  | None => Raise ValueError_name_unset
  end.

(** ** ExperimentPopulation *)

(** [x in ids] for an [Optional[int]] against a tuple of [int]. *)
Definition opt_in (x : option Z) (ids : list Z) : bool :=
  match x with
  | Some x => bool_decide (x ∈ ids)
  | None => false
  end.

(** The range test shared by the [id_range] and [member_count_range]
    branches:
    [if start is not None and start <= x <= end: continue]
    [elif x <= end: continue]
    [return -1]. *)
Definition range_branch (start : option Z) (end_ : Z) (x : Z) : bool :=
  if match start with
     | Some start => (start <=? x) && (x <=? end_)
     | None => false
     end
  then true
  else if x <=? end_ then true
  else false.

(** The transformed hash of the [hash_range] branch. *)
Definition hash_range_value (hash_key : string) (guild : Guild.t) : Z :=
  let result := murmurhash32 (fmt_key hash_key (Guild.id guild)) in
  if 0 <? result then result + result
  else Z.shiftr (result mod 0x100000000) 0.

(** One turn of the loop [for type, value in self.filters]:
    [Return true] is [continue] (or falling through to the next turn),
    [Return false] is [return -1]. *)
Definition filter_step (guild : Guild.t) (f : ExperimentFilter.t) : result bool :=
  match f with
  | ExperimentFilter.feature features =>
      if existsb (fun feature => bool_decide (feature ∈ Guild.features guild)) features
      then Return true
      else Return false
  | ExperimentFilter.id_range start end_ =>
      Return (range_branch start end_ (Guild.id guild))
  | ExperimentFilter.member_count_range start end_ =>
      match Guild.member_count guild with
      | None => Return true
      | Some member_count => Return (range_branch start end_ member_count)
      end
  | ExperimentFilter.ids ids =>
      if bool_decide (Guild.id guild ∈ ids) then Return true else Return false
  | ExperimentFilter.hub_type => Return true
  | ExperimentFilter.hash_range hash_key target =>
      if hash_range_value hash_key guild mod 10000 <? target then Return true
      else Return false
  | ExperimentFilter.vanity_url required =>
      if negb (Bool.eqb required (truthy_str (Guild.vanity_url_code guild)))
      then Return false
      else Return true
  | ExperimentFilter.unknown type => Raise (NotImplementedError_unknown_filter type)
  end.

Fixpoint filters_loop (guild : Guild.t) (filters : list ExperimentFilter.t) : result bool :=
  match filters with
  | [] => Return true
  | f :: filters' =>
      passed ← filter_step guild f;
      if passed : bool then filters_loop guild filters' else Return false
  end.

(** [for rollout in self.rollouts: for start, end in rollout.ranges: ...],
    then [return -1]. *)
Fixpoint rollouts_loop (rollouts : list ExperimentRollout.t) (_result : Z) : Z :=
  match rollouts with
  | [] => -1
  | rollout :: rollouts' =>
      if ranges_contain (ExperimentRollout.ranges rollout) _result
      then ExperimentRollout.bucket rollout
      else rollouts_loop rollouts' _result
  end.

Definition ExperimentPopulation_bucket_for
    (st : Store) (self : ExperimentPopulation.t) (guild : Guild.t) (_result : option Z)
  : result Z :=
  _result ← match _result with
            | None =>
                GuildExperiment_result_for
                  (deref st (ExperimentPopulation.experiment self)) guild
            | Some r => Return r
            end;
  passed ← filters_loop guild (ExperimentPopulation.filters self);
  if passed : bool
  then Return (rollouts_loop (ExperimentPopulation.rollouts self) _result)
  else Return (-1).

Definition ExperimentPopulation___contains__
    (st : Store) (self : ExperimentPopulation.t) (item : Guild.t) : result bool :=
  b ← ExperimentPopulation_bucket_for st self item None;
  Return (negb (b =? -1)).

(** ** ExperimentOverride *)

Definition ExperimentOverride___contains__ (self : ExperimentOverride.t) (item : Z) : bool :=
  bool_decide (item ∈ ExperimentOverride.ids self).

(** ** HoldoutExperiment and GuildExperiment.bucket_for *)

(** The property [HoldoutExperiment.experiment]: the registry lookup, with
    the backfill of the found experiment's name.  [None] is Python's
    [None]. *)
Definition HoldoutExperiment_experiment (self : HoldoutExperiment.t) (st : Store)
  : option loc * Store :=
  let experiment_hash := murmurhash32 (HoldoutExperiment.name self) in
  match guild_experiments st !! experiment_hash with
  | Some experiment =>
      if negb (truthy_str (GuildExperiment_name (deref st experiment))) then
        (Some experiment,
         with_objects st
           (<[experiment :=
                GuildExperiment.with_name (deref st experiment)
                  (Some (HoldoutExperiment.name self))]> (objects st)))
      else (Some experiment, st)
  | None => (None, st)
  end.

(** [HoldoutExperiment.is_eligible], over the [bucket_for] it calls. *)
Definition is_eligible_with
    (bucket_for : loc -> Guild.t -> Store -> result Z * Store)
    (self : HoldoutExperiment.t) (guild : Guild.t) (st : Store)
  : result bool * Store :=
  let '(experiment, st) := HoldoutExperiment_experiment self st in
  match experiment with
  | None => (Return true, st)
  | Some experiment =>
      let '(b, st) := bucket_for experiment guild st in
      (b ← b; Return (b =? HoldoutExperiment.bucket self), st)
  end.

(** [for override in self.overrides: if guild.id in override.ids or
    guild.owner_id in override.ids: return override.bucket];
    [None] when the loop ends without returning. *)
Fixpoint overrides_loop (guild : Guild.t) (overrides : list ExperimentOverride.t)
  : option Z :=
  match overrides with
  | [] => None
  | override :: overrides' =>
      if bool_decide (Guild.id guild ∈ ExperimentOverride.ids override)
         || opt_in (Guild.owner_id guild) (ExperimentOverride.ids override)
      then Some (ExperimentOverride.bucket override)
      else overrides_loop guild overrides'
  end.

(** [for population in populations: pop_bucket = population.bucket_for(guild,
    hash_result); if pop_bucket != -1: return pop_bucket];
    [Return None] when the loop ends without returning. *)
Fixpoint populations_loop (st : Store) (guild : Guild.t) (hash_result : Z)
    (populations : list ExperimentPopulation.t) : result (option Z) :=
  match populations with
  | [] => Return None
  | population :: populations' =>
      pop_bucket ← ExperimentPopulation_bucket_for st population guild (Some hash_result);
      if negb (pop_bucket =? -1) then Return (Some pop_bucket)
      else populations_loop st guild hash_result populations'
  end.

(** [for overrides in self.overrides_formatted: for override in overrides: ...] *)
Fixpoint formatted_loop (st : Store) (guild : Guild.t) (hash_result : Z)
    (overrides_formatted : list (list ExperimentPopulation.t)) : result (option Z) :=
  match overrides_formatted with
  | [] => Return None
  | overrides :: overrides_formatted' =>
      r ← populations_loop st guild hash_result overrides;
      match r with
      | Some pop_bucket => Return (Some pop_bucket)
      | None => formatted_loop st guild hash_result overrides_formatted'
      end
  end.

(** [GuildExperiment.bucket_for] from [hash_result = self.result_for(guild)]
    on. *)
Definition bucket_for_tail (st : Store) (self : GuildExperiment.t) (guild : Guild.t)
  : result Z :=
  hash_result ← GuildExperiment_result_for self guild;
  match overrides_loop guild (GuildExperiment.overrides self) with
  | Some bucket => Return bucket
  | None =>
      r ← formatted_loop st guild hash_result (GuildExperiment.overrides_formatted self);
      match r with
      | Some pop_bucket => Return pop_bucket
      | None =>
          r ← populations_loop st guild hash_result (GuildExperiment.populations self);
          match r with
          | Some pop_bucket => Return pop_bucket
          | None => Return (-1)
          end
      end
  end.

(** [GuildExperiment.bucket_for] on the object at [self].  The call recurses
    through [self.holdout.is_eligible(guild)] into the [bucket_for] of the
    dependency; [fuel] bounds the depth of that recursion. *)
Fixpoint GuildExperiment_bucket_for (fuel : nat) (self : loc) (guild : Guild.t) (st : Store)
  : result Z * Store :=
  match fuel with
  | O => (OutOfFuel, st)
  | S fuel =>
      if GuildExperiment.aa_mode (deref st self) then (Return (-1), st)
      else
        let '(eligible, st) :=
          match GuildExperiment.holdout (deref st self) with
          | Some holdout =>
              is_eligible_with (GuildExperiment_bucket_for fuel) holdout guild st
          | None => (Return true, st)
          end in
        match eligible with
        | Return false => (Return (-1), st)
        | Return true => (bucket_for_tail st (deref st self) guild, st)
        | Raise e => (Raise e, st)
        | OutOfFuel => (OutOfFuel, st)
        end
  end.

Definition HoldoutExperiment_is_eligible (fuel : nat)
    (self : HoldoutExperiment.t) (guild : Guild.t) (st : Store) : result bool * Store :=
  is_eligible_with (GuildExperiment_bucket_for fuel) self guild st.

(** ** UserExperiment *)

Definition UserExperiment___hash__ (self : UserExperiment.t) : Z :=
  UserExperiment.hash self.

Definition UserExperiment___eq__ (self other : UserExperiment.t) : bool :=
  UserExperiment.hash self =? UserExperiment.hash other.

Definition UserExperiment_name (self : UserExperiment.t) : option string :=
  UserExperiment._name self.

Definition UserExperiment_name_setter (self : UserExperiment.t) (value : option string)
  : result UserExperiment.t :=
  match value with
  | Some v =>
      if negb (truthy_str value) then Return (UserExperiment.with_name self None)
      else if negb (murmurhash32 v =? UserExperiment.hash self) then
        Raise ValueError_name_mismatch
      else Return (UserExperiment.with_name self (Some v))
  | None => Return (UserExperiment.with_name self None)
  end.

Definition UserExperiment_bucket (self : UserExperiment.t) : Z :=
  if UserExperiment.aa_mode self then -1
  else if negb (UserExperiment.override self =? -1) then UserExperiment.override self
  else UserExperiment.population self.

(** The [elif]/[else] part of [UserExperiment.result]. *)
Definition UserExperiment_result_from_name (st : Store) (self : UserExperiment.t)
  : result Z :=
  match UserExperiment_name self with
  | Some name =>
      if negb (truthy_str (Some name)) then Raise ValueError_name_unset
      else Return (murmurhash32 (fmt_key name (self_id st)) mod 10000)
  | None => Raise ValueError_name_unset
  end.

Definition UserExperiment_result (st : Store) (self : UserExperiment.t) : result Z :=
  match UserExperiment._result self with
  | Some r =>
      if truthy_int (Some r) then Return r
      else UserExperiment_result_from_name st self
  | None => UserExperiment_result_from_name st self
  end.

(** ** String conversion, sizes and membership *)

(** [self._name or '']. *)
Definition GuildExperiment___str__ (self : GuildExperiment.t) : string :=
  match GuildExperiment._name self with
  | Some name => if truthy_str (Some name) then name else ""
  | None => ""
  end.

Definition UserExperiment___str__ (self : UserExperiment.t) : string :=
  match UserExperiment._name self with
  | Some name => if truthy_str (Some name) then name else ""
  | None => ""
  end.

Definition ExperimentOverride___len__ (self : ExperimentOverride.t) : nat :=
  length (ExperimentOverride.ids self).

Definition ExperimentOverride___iter__ (self : ExperimentOverride.t) : list Z :=
  ExperimentOverride.ids self.

Definition HoldoutExperiment___contains__ (fuel : nat)
    (self : HoldoutExperiment.t) (item : Guild.t) (st : Store) : result bool * Store :=
  HoldoutExperiment_is_eligible fuel self item st.

(** ** GuildExperiment.guilds_for *)

(** [[x for x in self._state.guilds if self.bucket_for(x) == bucket]];
    [guilds] is [self._state.guilds].  The calls of [bucket_for] run in the
    order of the list and each sees the store the previous one left; an
    exception ends the comprehension. *)
Fixpoint GuildExperiment_guilds_for (fuel : nat) (self : loc) (bucket : Z)
    (guilds : list Guild.t) (st : Store) : result (list Guild.t) * Store :=
  match guilds with
  | [] => (Return [], st)
  | x :: guilds' =>
      let '(b, st) := GuildExperiment_bucket_for fuel self x st in
      match b with
      | Return b =>
          let '(rest, st) := GuildExperiment_guilds_for fuel self bucket guilds' st in
          (rest ← rest; Return (if b =? bucket then x :: rest else rest), st)
      | Raise e => (Raise e, st)
      | OutOfFuel => (OutOfFuel, st)
      end
  end.

(** ** Constructors *)

(** The payloads, in the shapes that the constructors unpack. *)
Module Payload.
Record range : Type := { s : Z; e : Z }.

Definition rollout : Type := (Z * list range)%type.

Definition population : Type := (list rollout * list ExperimentFilter.t)%type.

Record override : Type := { b : Z; k : list Z }.

Record guild_experiment : Type := {
  hash : Z;
  hash_key : option string;
  revision : Z;
  populations : list population;
  overrides : list override;
  overrides_formatted : list (list population);
  holdout_name : option string;
  holdout_bucket : option Z;
  aa_mode : Z;
}.

Record assignment : Type := {
  a_hash_key : Z;
  a_revision : Z;
  a_bucket : Z;
  a_override : Z;
  a_population : Z;
  a_hash_result : option Z;
  a_aa_mode : Z;
}.
End Payload.

Definition ExperimentRollout___init__ (data : Payload.rollout) : ExperimentRollout.t :=
  let '(bucket, ranges) := data in
  {| ExperimentRollout.bucket := bucket;
     ExperimentRollout.ranges :=
       map (fun range => (Payload.s range, Payload.e range)) ranges |}.

Definition ExperimentPopulation___init__ (experiment : loc) (data : Payload.population)
  : ExperimentPopulation.t :=
  let '(rollouts, filters) := data in
  {| ExperimentPopulation.experiment := experiment;
     ExperimentPopulation.filters := filters;
     ExperimentPopulation.rollouts := map ExperimentRollout___init__ rollouts |}.

Definition ExperimentOverride___init__ (data : Payload.override) : ExperimentOverride.t :=
  {| ExperimentOverride.bucket := Payload.b data;
     ExperimentOverride.ids := Payload.k data |}.

Definition HoldoutExperiment___init__ (dependent : loc) (name : string) (bucket : Z)
  : HoldoutExperiment.t :=
  {| HoldoutExperiment.dependent := dependent;
     HoldoutExperiment.name := name;
     HoldoutExperiment.bucket := bucket |}.

(** [GuildExperiment.__init__]; [self] is the location of the object under
    construction, which its populations and its holdout refer back to. *)
Definition GuildExperiment___init__ (self : loc) (data : Payload.guild_experiment)
  : GuildExperiment.t :=
  {| GuildExperiment.hash := Payload.hash data;
     GuildExperiment._name := Payload.hash_key data;
     GuildExperiment.revision := Payload.revision data;
     GuildExperiment.populations :=
       map (ExperimentPopulation___init__ self) (Payload.populations data);
     GuildExperiment.overrides :=
       map ExperimentOverride___init__ (Payload.overrides data);
     GuildExperiment.overrides_formatted :=
       map (map (ExperimentPopulation___init__ self)) (Payload.overrides_formatted data);
     GuildExperiment.holdout :=
       match Payload.holdout_name data, Payload.holdout_bucket data with
       | Some holdout_name, Some holdout_bucket =>
           Some (HoldoutExperiment___init__ self holdout_name holdout_bucket)
       | _, _ => None
       end;
     GuildExperiment.aa_mode := Payload.aa_mode data =? 1 |}.

Definition UserExperiment___init__ (data : Payload.assignment) : UserExperiment.t :=
  {| UserExperiment._name := None;
     UserExperiment.hash := Payload.a_hash_key data;
     UserExperiment.revision := Payload.a_revision data;
     UserExperiment.assignment := Payload.a_bucket data;
     UserExperiment.override := Payload.a_override data;
     UserExperiment.population := Payload.a_population data;
     UserExperiment._result := Payload.a_hash_result data;
     UserExperiment.aa_mode := if Payload.a_aa_mode data =? 1 then true else false |}.

(** * Specification-side definitions and sample objects *)

(** A user experiment with assignment 3, population 0, no override, a
    precomputed result of 0 and no name; its hash is that of ["exp"]. *)
Definition user_assigned_3 : UserExperiment.t :=
  {| UserExperiment._name := None;
     UserExperiment.hash := 4073051605;
     UserExperiment.revision := 1;
     UserExperiment.assignment := 3;
     UserExperiment.override := -1;
     UserExperiment.population := 0;
     UserExperiment._result := Some 0;
     UserExperiment.aa_mode := false |}.

(** A guild of which only the id is known. *)
Definition guild_of_id (id : Z) : Guild.t :=
  {| Guild.id := id;
     Guild.owner_id := None;
     Guild.features := [];
     Guild.member_count := None;
     Guild.vanity_url_code := None |}.

Definition empty_store : Store :=
  {| objects := ∅; guild_experiments := ∅; self_id := 0 |}.

(** A population behind the clause IdRange(100, 200) whose rollout gives
    bucket 1 to every position. *)
Definition population_id_100_200 : ExperimentPopulation.t :=
  {| ExperimentPopulation.experiment := 0%nat;
     ExperimentPopulation.filters := [ExperimentFilter.id_range (Some 100) 200];
     ExperimentPopulation.rollouts :=
       [{| ExperimentRollout.bucket := 1; ExperimentRollout.ranges := [(0, 9999)] |}] |}.

(** The HashRange test in the words of its description: [h] is the unsigned
    hash of ["<key>:<id>"], doubled without reduction when positive and
    reduced modulo 2^32 otherwise, and the clause passes when
    [h mod 10000 < target]. *)
Definition hash_range_passes (key : string) (target id : Z) : bool :=
  let h := murmurhash32 (key +:+ ":" +:+ pretty id) in
  let h := if bool_decide (h > 0) then h + h else h mod 2 ^ 32 in
  bool_decide (h mod 10000 < target).

(** A bare guild experiment whose hash is that of ["exp"], name not yet
    set. *)
Definition experiment_exp : GuildExperiment.t :=
  {| GuildExperiment.hash := 4073051605;
     GuildExperiment._name := None;
     GuildExperiment.revision := 1;
     GuildExperiment.populations := [];
     GuildExperiment.overrides := [];
     GuildExperiment.overrides_formatted := [];
     GuildExperiment.holdout := None;
     GuildExperiment.aa_mode := false |}.

(** The store after the name of the object at [l] has been backfilled with
    [name], which happens only when that object has no name yet. *)
Definition backfill_name (st : Store) (l : loc) (name : string) : Store :=
  if truthy_str (GuildExperiment._name (deref st l)) then st
  else with_objects st
         (<[l := GuildExperiment.with_name (deref st l) (Some name)]> (objects st)).

(** [e'] is [e], or [e] with a name filled in where it had none, the name
    being one that the registry of [st] resolves to the object's location. *)
Definition backfill_of (st : Store) (l : loc) (e e' : GuildExperiment.t) : Prop :=
  e' = e
  \/ (truthy_str (GuildExperiment._name e) = false
      /\ exists name,
           guild_experiments st !! murmurhash32 name = Some l
           /\ e' = GuildExperiment.with_name e (Some name)).

Record backfilled (st st' : Store) : Prop := {
  backfilled_registry : guild_experiments st' = guild_experiments st;
  backfilled_self_id : self_id st' = self_id st;
  backfilled_objects : forall l, backfill_of st l (deref st l) (deref st' l);
}.

(** The override's id set contains the guild's id or the guild's owner
    id. *)
Definition override_names (guild : Guild.t) (override : ExperimentOverride.t) : Prop :=
  Guild.id guild ∈ ExperimentOverride.ids override
  \/ Guild.owner_id guild ∈ (Some <$> ExperimentOverride.ids override).

#[global] Instance override_names_dec guild override :
  Decision (override_names guild override).
Proof. unfold override_names. apply _. Defined.

(** The first bucket of a sequence of population answers that is not the
    sentinel -1, and -1 when there is none; an answer that is an error ends
    the scan with that error. *)
Fixpoint first_assigned (answers : list (result Z)) : result Z :=
  match answers with
  | [] => Return (-1)
  | answer :: answers' =>
      bucket ← answer;
      if bool_decide (bucket = -1) then first_assigned answers' else Return bucket
  end.

(** [GuildExperiment.bucket_for] as its precedence rule words it:
    A/A mode, then the holdout, then the position, then the first override
    that names the guild or its owner, then the populations of
    [overrides_formatted] followed by [populations]. *)
Definition bucket_for_by_precedence
    (fuel : nat) (self : loc) (guild : Guild.t) (st : Store) : result Z * Store :=
  let experiment := deref st self in
  if GuildExperiment.aa_mode experiment then (Return (-1), st)
  else
    let '(eligible, st') :=
      match GuildExperiment.holdout experiment with
      | Some holdout => HoldoutExperiment_is_eligible fuel holdout guild st
      | None => (Return true, st)
      end in
    (eligible ← eligible;
     if eligible : bool then
       position ← GuildExperiment_result_for (deref st' self) guild;
       match List.find (fun o => bool_decide (override_names guild o))
               (GuildExperiment.overrides experiment) with
       | Some override => Return (ExperimentOverride.bucket override)
       | None =>
           first_assigned
             (map (fun population =>
                     ExperimentPopulation_bucket_for st' population guild (Some position))
                  (concat (GuildExperiment.overrides_formatted experiment)
                     ++ GuildExperiment.populations experiment))
       end
     else Return (-1),
     st').

(** The answer of one population at a given position. *)
Definition population_answer (st : Store) (guild : Guild.t) (hash_result : Z)
    (population : ExperimentPopulation.t) : result Z :=
  ExperimentPopulation_bucket_for st population guild (Some hash_result).

(** The scan of [first_assigned] with an answer to fall back on. *)
Fixpoint scan_or (fallback : result Z) (answers : list (result Z)) : result Z :=
  match answers with
  | [] => fallback
  | answer :: answers' =>
      bucket ← answer;
      if bool_decide (bucket = -1) then scan_or fallback answers' else Return bucket
  end.

(** The holdout chain that starts at the experiment at [l] ends within [n]
    calls of [bucket_for]: at an experiment in A/A mode, at one without a
    holdout, or at a holdout whose dependency the registry does not have. *)
Inductive settles (st : Store) : loc -> nat -> Prop :=
  | settles_aa_mode l n :
      GuildExperiment.aa_mode (deref st l) = true ->
      settles st l (S n)
  | settles_no_holdout l n :
      GuildExperiment.holdout (deref st l) = None ->
      settles st l (S n)
  | settles_not_found l n holdout :
      GuildExperiment.holdout (deref st l) = Some holdout ->
      guild_experiments st !! murmurhash32 (HoldoutExperiment.name holdout) = None ->
      settles st l (S n)
  | settles_dependency l n holdout l' :
      GuildExperiment.holdout (deref st l) = Some holdout ->
      guild_experiments st !! murmurhash32 (HoldoutExperiment.name holdout) = Some l' ->
      settles st l' n ->
      settles st l (S n).

(** An experiment with one override (bucket 7 for id 42) and one population
    without filters whose rollout gives bucket 3 to every position. *)
Definition experiment_7_3 : GuildExperiment.t :=
  {| GuildExperiment.hash := 4073051605;
     GuildExperiment._name := Some "exp"%string;
     GuildExperiment.revision := 1;
     GuildExperiment.populations :=
       [{| ExperimentPopulation.experiment := 0%nat;
           ExperimentPopulation.filters := [];
           ExperimentPopulation.rollouts :=
             [{| ExperimentRollout.bucket := 3;
                 ExperimentRollout.ranges := [(0, 9999)] |}] |}];
     GuildExperiment.overrides :=
       [{| ExperimentOverride.bucket := 7; ExperimentOverride.ids := [42] |}];
     GuildExperiment.overrides_formatted := [];
     GuildExperiment.holdout := None;
     GuildExperiment.aa_mode := false |}.

Definition store_7_3 : Store :=
  {| objects := {[ 0%nat := experiment_7_3 ]};
     guild_experiments := {[ 4073051605 := 0%nat ]};
     self_id := 0 |}.

(** The same override in front of a single population whose only filter is
    of a kind outside the enumeration. *)
Definition experiment_7_unknown : GuildExperiment.t :=
  {| GuildExperiment.hash := 4073051605;
     GuildExperiment._name := Some "exp"%string;
     GuildExperiment.revision := 1;
     GuildExperiment.populations :=
       [{| ExperimentPopulation.experiment := 0%nat;
           ExperimentPopulation.filters := [ExperimentFilter.unknown 77];
           ExperimentPopulation.rollouts := [] |}];
     GuildExperiment.overrides :=
       [{| ExperimentOverride.bucket := 7; ExperimentOverride.ids := [42] |}];
     GuildExperiment.overrides_formatted := [];
     GuildExperiment.holdout := None;
     GuildExperiment.aa_mode := false |}.

Definition store_7_unknown : Store :=
  {| objects := {[ 0%nat := experiment_7_unknown ]};
     guild_experiments := {[ 4073051605 := 0%nat ]};
     self_id := 0 |}.

(** Three experiments: ["a"] holds out on ["b"], ["b"] holds out on ["c"],
    and ["c"] is in A/A mode; ["b"] and ["c"] came without their names. *)
Definition holdout_a_on_b : HoldoutExperiment.t :=
  {| HoldoutExperiment.dependent := 0%nat;
     HoldoutExperiment.name := "b";
     HoldoutExperiment.bucket := 0 |}.

Definition holdout_b_on_c : HoldoutExperiment.t :=
  {| HoldoutExperiment.dependent := 1%nat;
     HoldoutExperiment.name := "c";
     HoldoutExperiment.bucket := 0 |}.

Definition experiment_a : GuildExperiment.t :=
  {| GuildExperiment.hash := 1009084850;
     GuildExperiment._name := Some "a"%string;
     GuildExperiment.revision := 1;
     GuildExperiment.populations := [];
     GuildExperiment.overrides := [];
     GuildExperiment.overrides_formatted := [];
     GuildExperiment.holdout := Some holdout_a_on_b;
     GuildExperiment.aa_mode := false |}.

Definition experiment_b : GuildExperiment.t :=
  {| GuildExperiment.hash := 2514386435;
     GuildExperiment._name := None;
     GuildExperiment.revision := 1;
     GuildExperiment.populations := [];
     GuildExperiment.overrides := [];
     GuildExperiment.overrides_formatted := [];
     GuildExperiment.holdout := Some holdout_b_on_c;
     GuildExperiment.aa_mode := false |}.

Definition experiment_c : GuildExperiment.t :=
  {| GuildExperiment.hash := 3778205279;
     GuildExperiment._name := None;
     GuildExperiment.revision := 1;
     GuildExperiment.populations := [];
     GuildExperiment.overrides := [];
     GuildExperiment.overrides_formatted := [];
     GuildExperiment.holdout := None;
     GuildExperiment.aa_mode := true |}.

Definition store_abc : Store :=
  {| objects := {[ 0%nat := experiment_a; 1%nat := experiment_b; 2%nat := experiment_c ]};
     guild_experiments :=
       {[ 1009084850 := 0%nat; 2514386435 := 1%nat; 3778205279 := 2%nat ]};
     self_id := 0 |}.

(** A filter of one of the kinds of the enumeration. *)
Definition known_filter (f : ExperimentFilter.t) : bool :=
  match f with
  | ExperimentFilter.unknown _ => false
  | _ => true
  end.

(** The buckets an experiment is configured with: those of its overrides
    and those of the rollouts of all its populations. *)
Definition configured_buckets (experiment : GuildExperiment.t) : list Z :=
  map ExperimentOverride.bucket (GuildExperiment.overrides experiment)
  ++ concat
       (map (fun population =>
               map ExperimentRollout.bucket (ExperimentPopulation.rollouts population))
            (concat (GuildExperiment.overrides_formatted experiment)
               ++ GuildExperiment.populations experiment)).

(** Every experiment of the registry has its name. *)
Definition all_named (st : Store) : Prop :=
  forall key l,
    guild_experiments st !! key = Some l ->
    truthy_str (GuildExperiment._name (deref st l)) = true.

(** The registry files every experiment under its own hash. *)
Definition registry_keyed (st : Store) : Prop :=
  forall key l,
    guild_experiments st !! key = Some l ->
    GuildExperiment.hash (deref st l) = key.

(** Every name that is set hashes to the hash of its experiment. *)
Definition names_match (st : Store) : Prop :=
  forall l name,
    GuildExperiment._name (deref st l) = Some name ->
    name <> ""%string ->
    murmurhash32 name = GuildExperiment.hash (deref st l).

(** [P] is a set of experiments, none in A/A mode, each with a holdout
    that the registry resolves to an experiment of [P] again. *)
Definition trapped (st : Store) (P : loc -> Prop) : Prop :=
  forall l,
    P l ->
    GuildExperiment.aa_mode (deref st l) = false
    /\ exists holdout l',
         GuildExperiment.holdout (deref st l) = Some holdout
         /\ guild_experiments st !! murmurhash32 (HoldoutExperiment.name holdout) = Some l'
         /\ P l'.

(** [self.bucket_for(x) == bucket], false when the call does not return. *)
Definition has_bucket (fuel : nat) (self : loc) (st : Store) (bucket : Z) (x : Guild.t)
  : bool :=
  match fst (GuildExperiment_bucket_for fuel self x st) with
  | Return b => b =? bucket
  | _ => false
  end.

(** An experiment named ["a"] whose holdout is on ["a"] itself. *)
Definition experiment_self_holdout : GuildExperiment.t :=
  {| GuildExperiment.hash := 1009084850;
     GuildExperiment._name := Some "a"%string;
     GuildExperiment.revision := 1;
     GuildExperiment.populations := [];
     GuildExperiment.overrides := [];
     GuildExperiment.overrides_formatted := [];
     GuildExperiment.holdout :=
       Some {| HoldoutExperiment.dependent := 0%nat;
               HoldoutExperiment.name := "a";
               HoldoutExperiment.bucket := 0 |};
     GuildExperiment.aa_mode := false |}.

Definition store_self_holdout : Store :=
  {| objects := {[ 0%nat := experiment_self_holdout ]};
     guild_experiments := {[ 1009084850 := 0%nat ]};
     self_id := 0 |}.

(** A population with two rollouts: bucket 1 for positions 0 to 4999,
    bucket 2 for positions 5000 to 9999, open to the guilds up to id 100. *)
Definition population_halves : ExperimentPopulation.t :=
  {| ExperimentPopulation.experiment := 0%nat;
     ExperimentPopulation.filters := [ExperimentFilter.id_range None 100];
     ExperimentPopulation.rollouts :=
       [{| ExperimentRollout.bucket := 1; ExperimentRollout.ranges := [(0, 4999)] |};
        {| ExperimentRollout.bucket := 2; ExperimentRollout.ranges := [(5000, 9999)] |}] |}.

(** The payload of an experiment named ["exp"] with one population and a
    holdout on ["dep"]. *)
Definition payload_exp : Payload.guild_experiment :=
  {| Payload.hash := 4073051605;
     Payload.hash_key := Some "exp"%string;
     Payload.revision := 1;
     Payload.populations :=
       [([(1, [{| Payload.s := 0; Payload.e := 9999 |}])],
         [ExperimentFilter.id_range None 100])];
     Payload.overrides := [{| Payload.b := 7; Payload.k := [42] |}];
     Payload.overrides_formatted := [];
     Payload.holdout_name := Some "dep"%string;
     Payload.holdout_bucket := Some 1;
     Payload.aa_mode := 0 |}.

(** The same payload under a name that does not hash to its hash. *)
Definition payload_misnamed : Payload.guild_experiment :=
  {| Payload.hash := 4073051605;
     Payload.hash_key := Some "dep"%string;
     Payload.revision := 1;
     Payload.populations := [];
     Payload.overrides := [];
     Payload.overrides_formatted := [];
     Payload.holdout_name := None;
     Payload.holdout_bucket := None;
     Payload.aa_mode := 0 |}.

Definition store_payload_exp : Store :=
  {| objects := {[ 0%nat := GuildExperiment___init__ 0%nat payload_exp ]};
     guild_experiments := {[ 4073051605 := 0%nat ]};
     self_id := 0 |}.

(** The payload of a user experiment for hash of ["exp"], bucket 3, no
    override and no precomputed position. *)
Definition payload_user : Payload.assignment :=
  {| Payload.a_hash_key := 4073051605;
     Payload.a_revision := 1;
     Payload.a_bucket := 3;
     Payload.a_override := -1;
     Payload.a_population := 0;
     Payload.a_hash_result := Some 0;
     Payload.a_aa_mode := 0 |}.


(** The guild's id, or the id of its owner, is in the override
    ([guild.id in override] or [guild.owner_id in override]). *)
Definition override_holds (guild : Guild.t) (override : ExperimentOverride.t) : Prop :=
  ExperimentOverride___contains__ override (Guild.id guild) = true
  \/ exists owner,
       Guild.owner_id guild = Some owner
       /\ ExperimentOverride___contains__ override owner = true.




(** A named experiment with two overrides for the same id 42: bucket 7
    first, bucket 8 second. *)
Definition experiment_7_8 : GuildExperiment.t :=
  {| GuildExperiment.hash := 4073051605;
     GuildExperiment._name := Some "exp"%string;
     GuildExperiment.revision := 1;
     GuildExperiment.populations := [];
     GuildExperiment.overrides :=
       [{| ExperimentOverride.bucket := 7; ExperimentOverride.ids := [42] |};
        {| ExperimentOverride.bucket := 8; ExperimentOverride.ids := [42] |}];
     GuildExperiment.overrides_formatted := [];
     GuildExperiment.holdout := None;
     GuildExperiment.aa_mode := false |}.

Definition store_7_8 : Store :=
  {| objects := {[ 0%nat := experiment_7_8 ]};
     guild_experiments := {[ 4073051605 := 0%nat ]};
     self_id := 0 |}.

(** * Properties *)

(** ** Test vectors of the hash *)

Example sample_hashes :
  murmurhash32 "exp" = 4073051605
  /\ murmurhash32 "a" = 1009084850
  /\ murmurhash32 "b" = 2514386435
  /\ murmurhash32 "c" = 3778205279.
Proof. vm_compute. repeat split; reflexivity. Qed.

Example murmurhash32_empty : murmurhash32 "" = 0.
Proof. reflexivity. Qed.

Example murmurhash32_test : murmurhash32 "test" = 0xBA6BD213.
Proof. vm_compute. reflexivity. Qed.

Example murmurhash32_hello_world : murmurhash32 "Hello, world!" = 0xC0363E43.
Proof. vm_compute. reflexivity. Qed.

Example murmurhash32_fox :
  murmurhash32 "The quick brown fox jumps over the lazy dog" = 0x2E4FF723.
Proof. vm_compute. reflexivity. Qed.

(** ** The hash is an unsigned 32-bit value *)

Lemma mask32_range (x : Z) : 0 <= Murmur.mask32 x < 2 ^ 32.
Proof.
  unfold Murmur.mask32.
  change 0xFFFFFFFF with (Z.ones 32).
  rewrite Z.land_ones by lia.
  apply Z.mod_pos_bound. lia.
Qed.

Lemma lxor_range (a b : Z) :
  0 <= a < 2 ^ 32 -> 0 <= b < 2 ^ 32 -> 0 <= Z.lxor a b < 2 ^ 32.
Proof.
  intros Ha Hb.
  assert (Hnn : 0 <= Z.lxor a b) by (apply Z.lxor_nonneg; lia).
  split; [exact Hnn|].
  destruct (Z.eq_dec (Z.lxor a b) 0) as [-> | Hne]; [lia|].
  apply Z.log2_lt_pow2; [lia|].
  assert (Hla : Z.log2 a < 32).
  { destruct (Z.eq_dec a 0) as [-> | ?]; [reflexivity|].
    apply Z.log2_lt_pow2; lia. }
  assert (Hlb : Z.log2 b < 32).
  { destruct (Z.eq_dec b 0) as [-> | ?]; [reflexivity|].
    apply Z.log2_lt_pow2; lia. }
  pose proof (Z.log2_lxor a b (proj1 Ha) (proj1 Hb)). lia.
Qed.

Lemma shiftr_range (h n : Z) :
  0 <= n -> 0 <= h < 2 ^ 32 -> 0 <= Z.shiftr h n < 2 ^ 32.
Proof.
  intros Hn Hh. rewrite Z.shiftr_div_pow2 by lia.
  assert (0 < 2 ^ n) by (apply Z.pow_pos_nonneg; lia).
  split.
  - apply Z.div_pos; lia.
  - apply Z.le_lt_trans with h; [|lia].
    apply Z.div_le_upper_bound; nia.
Qed.

Lemma fmix_range (h : Z) : 0 <= Murmur.fmix h < 2 ^ 32.
Proof.
  unfold Murmur.fmix. cbv zeta.
  apply lxor_range; [apply mask32_range|].
  apply shiftr_range; [lia | apply mask32_range].
Qed.

Lemma murmurhash32_range (key : string) : 0 <= murmurhash32 key < 2 ^ 32.
Proof.
  unfold murmurhash32, Murmur.hash_bytes.
  destruct (Murmur.blocks _ _) as [h1 rest].
  apply fmix_range.
Qed.

Lemma result_for_range (self : GuildExperiment.t) (guild : Guild.t) (r : Z) :
  GuildExperiment_result_for self guild = Return r -> 0 <= r < 10000.
Proof.
  unfold GuildExperiment_result_for.
  destruct (GuildExperiment_name self) as [name|]; [|discriminate].
  destruct (negb _); [discriminate|].
  intros [= <-]. apply Z.mod_pos_bound. lia.
Qed.

(** ** Python truthiness *)

Lemma truthy_str_true (s : option string) :
  truthy_str s = true <-> exists v, s = Some v /\ v <> ""%string.
Proof.
  destruct s as [v|]; simpl.
  - rewrite negb_true_iff. split.
    + intros H. exists v. split; [reflexivity|].
      intros ->. discriminate.
    + intros (v' & [= <-] & Hne).
      destruct (String.eqb_spec v ""); congruence.
  - split; [discriminate|]. intros (v & H & _). discriminate.
Qed.

Lemma truthy_str_nonempty (v : string) : v <> ""%string -> truthy_str (Some v) = true.
Proof. intros Hne. apply truthy_str_true. eauto. Qed.

(** ** Filters *)

(** The [elif] of the range branches accepts every value up to [end],
    whatever [start] is. *)
Lemma range_branch_upper_only (start : option Z) (end_ x : Z) :
  range_branch start end_ x = (x <=? end_).
Proof.
  unfold range_branch.
  destruct start as [start|]; [|destruct (x <=? end_); reflexivity].
  destruct (x <=? end_); [|rewrite andb_false_r; reflexivity].
  destruct (start <=? x); reflexivity.
Qed.

Lemma filters_loop_app (guild : Guild.t) (pre post : list ExperimentFilter.t) :
  filters_loop guild pre = Return true ->
  filters_loop guild (pre ++ post) = filters_loop guild post.
Proof.
  induction pre as [|f pre IH]; simpl; [reflexivity|].
  destruct (filter_step guild f) as [[|]| |]; simpl; try discriminate.
  exact IH.
Qed.

(** ** UserExperiment.bucket *)

Section UserBucket.

Variable self : UserExperiment.t.

Lemma UserExperiment_bucket_aa :
  UserExperiment.aa_mode self = true -> UserExperiment_bucket self = -1.
Proof. unfold UserExperiment_bucket. intros ->. reflexivity. Qed.

Lemma UserExperiment_bucket_override :
  UserExperiment.aa_mode self = false ->
  UserExperiment.override self <> -1 ->
  UserExperiment_bucket self = UserExperiment.override self.
Proof.
  unfold UserExperiment_bucket. intros -> Hne.
  destruct (Z.eqb_spec (UserExperiment.override self) (-1)); [contradiction|].
  reflexivity.
Qed.

(** Without an override the property reads [population], the internal
    population group, and never [assignment]. *)
Lemma UserExperiment_bucket_no_override :
  UserExperiment.aa_mode self = false ->
  UserExperiment.override self = -1 ->
  UserExperiment_bucket self = UserExperiment.population self.
Proof. unfold UserExperiment_bucket. intros -> ->. reflexivity. Qed.

End UserBucket.

(** C2, on the code: for a user experiment that is not in A/A mode, has no
    override (-1), assignment 3 and population 0, [.bucket] is 0, the
    population field, and not the assignment 3 that the attribute
    documentation promises. *)
Theorem C2_bucket_reads_population_not_assignment :
  UserExperiment_bucket user_assigned_3 = 0
  /\ UserExperiment_bucket user_assigned_3 = UserExperiment.population user_assigned_3
  /\ UserExperiment_bucket user_assigned_3 <> UserExperiment.assignment user_assigned_3.
Proof. repeat split. discriminate. Qed.

(** ** The IdRange filter *)

Lemma id_range_start_absent (end_ : Z) (guild : Guild.t) :
  filter_step guild (ExperimentFilter.id_range None end_)
  = Return (Guild.id guild <=? end_).
Proof. simpl. rewrite range_branch_upper_only. reflexivity. Qed.

Lemma id_range_start_present (start end_ : Z) (guild : Guild.t) :
  filter_step guild (ExperimentFilter.id_range (Some start) end_)
  = Return (Guild.id guild <=? end_).
Proof. simpl. rewrite range_branch_upper_only. reflexivity. Qed.

(** C3, on the code: with the clause IdRange(start = 100, end = 200), the
    guild with id 50, which lies below [start], passes the filter, and
    [ExperimentPopulation.bucket_for] hands it bucket 1 instead of -1. *)
Theorem C3_id_range_ignores_start :
  filter_step (guild_of_id 50) (ExperimentFilter.id_range (Some 100) 200) = Return true
  /\ ExperimentPopulation_bucket_for empty_store population_id_100_200 (guild_of_id 50) (Some 0)
     = Return 1.
Proof. split; reflexivity. Qed.

(** ** The HashRange filter *)

Lemma hash_range_step (hash_key : string) (target : Z) (guild : Guild.t) :
  filter_step guild (ExperimentFilter.hash_range hash_key target)
  = Return (hash_range_passes hash_key target (Guild.id guild)).
Proof.
  simpl. unfold hash_range_passes, hash_range_value, fmt_key. cbv zeta.
  set (h := murmurhash32 _).
  rewrite Z.shiftr_0_r.
  change 0x100000000 with (2 ^ 32).
  destruct (Z.ltb_spec 0 h) as [Hpos | Hnpos].
  - rewrite (bool_decide_eq_true_2 (h > 0)) by lia.
    destruct (Z.ltb_spec ((h + h) mod 10000) target).
    + rewrite bool_decide_eq_true_2 by assumption. reflexivity.
    + rewrite bool_decide_eq_false_2 by lia. reflexivity.
  - rewrite (bool_decide_eq_false_2 (h > 0)) by lia.
    destruct (Z.ltb_spec ((h mod 2 ^ 32) mod 10000) target).
    + rewrite bool_decide_eq_true_2 by assumption. reflexivity.
    + rewrite bool_decide_eq_false_2 by lia. reflexivity.
Qed.

(** C4: a HashRange(key, target) clause hashes ["<key>:<id>"] to an unsigned
    32-bit [h], replaces [h] by [h + h] (no modulus) when [h > 0] and by
    [h mod 2^32] otherwise, and passes exactly when [h mod 10000 < target];
    a population whose next clause it is goes on with the remaining clauses
    when it passes and answers -1 when it does not. *)
Theorem C4_hash_range_transform
    (st : Store) (guild : Guild.t) (hash_key : string) (target : Z)
    (experiment : loc) (rest : list ExperimentFilter.t)
    (rollouts : list ExperimentRollout.t) (position : Z) :
  let h := murmurhash32 (hash_key +:+ ":" +:+ pretty (Guild.id guild)) in
  let h' := if bool_decide (h > 0) then h + h else h mod 2 ^ 32 in
  0 <= h < 2 ^ 32
  /\ filter_step guild (ExperimentFilter.hash_range hash_key target)
     = Return (bool_decide (h' mod 10000 < target))
  /\ ExperimentPopulation_bucket_for st
       {| ExperimentPopulation.experiment := experiment;
          ExperimentPopulation.filters := ExperimentFilter.hash_range hash_key target :: rest;
          ExperimentPopulation.rollouts := rollouts |}
       guild (Some position)
     = if bool_decide (h' mod 10000 < target)
       then ExperimentPopulation_bucket_for st
              {| ExperimentPopulation.experiment := experiment;
                 ExperimentPopulation.filters := rest;
                 ExperimentPopulation.rollouts := rollouts |}
              guild (Some position)
       else Return (-1).
Proof.
  intros h h'. split; [apply murmurhash32_range|].
  pose proof (hash_range_step hash_key target guild) as Hstep.
  unfold hash_range_passes in Hstep. cbv zeta in Hstep. fold h in Hstep. fold h' in Hstep.
  split; [exact Hstep|].
  unfold ExperimentPopulation_bucket_for. cbn [ExperimentPopulation.filters filters_loop].
  rewrite Hstep.
  destruct (bool_decide (h' mod 10000 < target)); reflexivity.
Qed.

(** The doubling is really unreduced: for key ["k"] and guild 2 the hash is
    above 2^31, its double leaves the 32-bit range, and reducing the double
    modulo 2^32 first would change the value compared with [target]. *)
Example hash_range_double_overflows :
  let h := murmurhash32 (fmt_key "k" 2) in
  h = 4268129242
  /\ hash_range_value "k" (guild_of_id 2) = h + h
  /\ hash_range_value "k" (guild_of_id 2) mod 10000 = 8484
  /\ ((h + h) mod 2 ^ 32) mod 10000 = 1188.
Proof. vm_compute. repeat split; reflexivity. Qed.

(** ** UserExperiment.result *)

Section UserResult.

Variables (st : Store) (self : UserExperiment.t).

Lemma UserExperiment_result_precomputed (r : Z) :
  UserExperiment._result self = Some r -> r <> 0 ->
  UserExperiment_result st self = Return r.
Proof.
  unfold UserExperiment_result. intros -> Hr. simpl.
  destruct (Z.eqb_spec r 0); [contradiction|reflexivity].
Qed.


Lemma UserExperiment_result_from_name_set (name : string) :
  UserExperiment._name self = Some name -> name <> ""%string ->
  UserExperiment_result_from_name st self
  = Return (murmurhash32 (fmt_key name (self_id st)) mod 10000).
Proof.
  unfold UserExperiment_result_from_name, UserExperiment_name. intros -> Hne.
  rewrite (truthy_str_nonempty _ Hne). reflexivity.
Qed.


End UserResult.

(** C6, on the code: a user experiment whose precomputed result is 0 (a
    position of the range 0-9999) and whose name is unset raises the
    name-required error instead of returning 0; once the name is set, the
    property recomputes the position from the name (5813 for name ["exp"]
    and user 0) and still does not return the precomputed 0. *)
Theorem C6_result_zero_is_dropped :
  UserExperiment._result user_assigned_3 = Some 0
  /\ UserExperiment_result empty_store user_assigned_3 = Raise ValueError_name_unset
  /\ UserExperiment_result empty_store (UserExperiment.with_name user_assigned_3 (Some "exp"%string))
     = Return 5813.
Proof. vm_compute. repeat split; reflexivity. Qed.

(** ** Unknown filter kinds *)

(** C7: when every filter before a clause of an unrecognized kind passes,
    [ExperimentPopulation.bucket_for] raises the unsupported-filter error
    for that kind: with the position given (the call made by
    [GuildExperiment.bucket_for]) always, and without it as soon as the
    position could be computed; in no case does the call return a bucket. *)
Theorem C7_unknown_filter_raises
    (st : Store) (guild : Guild.t) (experiment : loc)
    (pre post : list ExperimentFilter.t) (type : Z)
    (rollouts : list ExperimentRollout.t) :
  let self :=
    {| ExperimentPopulation.experiment := experiment;
       ExperimentPopulation.filters := pre ++ ExperimentFilter.unknown type :: post;
       ExperimentPopulation.rollouts := rollouts |} in
  filters_loop guild pre = Return true ->
  (forall position,
      ExperimentPopulation_bucket_for st self guild (Some position)
      = Raise (NotImplementedError_unknown_filter type))
  /\ (forall position,
        GuildExperiment_result_for (deref st experiment) guild = Return position ->
        ExperimentPopulation_bucket_for st self guild None
        = Raise (NotImplementedError_unknown_filter type))
  /\ (forall _result bucket,
        ExperimentPopulation_bucket_for st self guild _result <> Return bucket).
Proof.
  intros self Hpre.
  assert (Hloop : filters_loop guild (ExperimentPopulation.filters self)
                  = Raise (NotImplementedError_unknown_filter type)).
  { unfold self. cbn [ExperimentPopulation.filters].
    rewrite (filters_loop_app guild pre _ Hpre). reflexivity. }
  split; [|split].
  - intros position. unfold ExperimentPopulation_bucket_for.
    rewrite Hloop. reflexivity.
  - intros position Hpos. unfold ExperimentPopulation_bucket_for.
    cbn [ExperimentPopulation.experiment self]. rewrite Hloop.
    unfold self at 1. cbn [ExperimentPopulation.experiment].
    rewrite Hpos. reflexivity.
  - intros _result bucket. unfold ExperimentPopulation_bucket_for.
    rewrite Hloop.
    destruct _result as [r|]; [discriminate|].
    destruct (GuildExperiment_result_for _ guild); discriminate.
Qed.

Lemma C7_unknown_filter_raises_witness :
  ExperimentPopulation_bucket_for empty_store
    {| ExperimentPopulation.experiment := 0%nat;
       ExperimentPopulation.filters :=
         [ExperimentFilter.hub_type; ExperimentFilter.id_range None 100]
           ++ ExperimentFilter.unknown 77 :: [ExperimentFilter.ids []];
       ExperimentPopulation.rollouts := [] |}
    (guild_of_id 50) (Some 0)
  = Raise (NotImplementedError_unknown_filter 77).
Proof.
  apply (C7_unknown_filter_raises empty_store (guild_of_id 50) 0%nat
           [ExperimentFilter.hub_type; ExperimentFilter.id_range None 100]
           [ExperimentFilter.ids []] 77 []).
  reflexivity.
Defined.

(** ** The name setters *)

Section NameSetter.

Variable self : GuildExperiment.t.

Lemma name_setter_falsy (value : option string) :
  truthy_str value = false ->
  GuildExperiment_name_setter self value
  = Return (GuildExperiment.with_name self None).
Proof.
  unfold GuildExperiment_name_setter.
  destruct value as [v|]; [|reflexivity].
  intros ->. reflexivity.
Qed.

Lemma name_setter_match (v : string) :
  v <> ""%string -> murmurhash32 v = GuildExperiment.hash self ->
  GuildExperiment_name_setter self (Some v)
  = Return (GuildExperiment.with_name self (Some v)).
Proof.
  intros Hne Hh. unfold GuildExperiment_name_setter.
  rewrite (truthy_str_nonempty _ Hne), Hh, Z.eqb_refl. reflexivity.
Qed.

Lemma name_setter_mismatch (v : string) :
  v <> ""%string -> murmurhash32 v <> GuildExperiment.hash self ->
  GuildExperiment_name_setter self (Some v) = Raise ValueError_name_mismatch.
Proof.
  intros Hne Hh. unfold GuildExperiment_name_setter.
  rewrite (truthy_str_nonempty _ Hne).
  destruct (Z.eqb_spec (murmurhash32 v) (GuildExperiment.hash self));
    [contradiction|reflexivity].
Qed.

End NameSetter.

(** C8: for a guild experiment and a non-empty string [s], setting the name
    to [s] raises the name-mismatch error exactly when the unsigned hash of
    [s] differs from the [hash] field; when the hashes agree the call
    succeeds, stores [s], leaves [hash] (and every other field) as it was,
    and setting [s] again succeeds and changes nothing. *)
Theorem C8_name_setter_validates_hash (self : GuildExperiment.t) (s : string) :
  s <> ""%string ->
  (GuildExperiment_name_setter self (Some s) = Raise ValueError_name_mismatch
   <-> murmurhash32 s <> GuildExperiment.hash self)
  /\ (murmurhash32 s = GuildExperiment.hash self ->
      exists self',
        GuildExperiment_name_setter self (Some s) = Return self'
        /\ self' = GuildExperiment.with_name self (Some s)
        /\ GuildExperiment.hash self' = GuildExperiment.hash self
        /\ GuildExperiment_name self' = Some s
        /\ GuildExperiment_name_setter self' (Some s) = Return self').
Proof.
  intros Hne. split.
  - split.
    + intros Hraise Heq.
      rewrite (name_setter_match self s Hne Heq) in Hraise. discriminate.
    + apply name_setter_mismatch. exact Hne.
  - intros Heq. exists (GuildExperiment.with_name self (Some s)).
    split; [apply name_setter_match; assumption|].
    split; [reflexivity|]. split; [reflexivity|]. split; [reflexivity|].
    apply (name_setter_match (GuildExperiment.with_name self (Some s)) s Hne).
    exact Heq.
Qed.

Lemma C8_name_setter_validates_hash_witness :
  GuildExperiment_name_setter experiment_exp (Some "exp"%string)
  = Return (GuildExperiment.with_name experiment_exp (Some "exp"%string))
  /\ GuildExperiment_name_setter experiment_exp (Some "dep"%string)
     = Raise ValueError_name_mismatch.
Proof.
  split.
  - destruct (C8_name_setter_validates_hash experiment_exp "exp") as [_ Hok];
      [discriminate|].
    destruct Hok as (self' & Hset & -> & _); [vm_compute; reflexivity|].
    exact Hset.
  - apply (C8_name_setter_validates_hash experiment_exp "dep");
      [discriminate | vm_compute; discriminate].
Defined.

(** ** Equality and hashing *)

(** C9: two guild experiments, and two user experiments, compare equal
    exactly when their [hash] fields are equal, whatever their other fields
    hold, and [__hash__] is the [hash] field. *)
Theorem C9_equality_is_hash_equality :
  (forall a b : GuildExperiment.t,
      (GuildExperiment___eq__ a b = true <-> GuildExperiment.hash a = GuildExperiment.hash b)
      /\ GuildExperiment___hash__ a = GuildExperiment.hash a)
  /\ (forall a b : UserExperiment.t,
        (UserExperiment___eq__ a b = true <-> UserExperiment.hash a = UserExperiment.hash b)
        /\ UserExperiment___hash__ a = UserExperiment.hash a)
  /\ (forall h n1 n2 r1 r2 p1 p2 o1 o2 f1 f2 d1 d2 a1 a2,
        GuildExperiment___eq__
          {| GuildExperiment.hash := h; GuildExperiment._name := n1;
             GuildExperiment.revision := r1; GuildExperiment.populations := p1;
             GuildExperiment.overrides := o1; GuildExperiment.overrides_formatted := f1;
             GuildExperiment.holdout := d1; GuildExperiment.aa_mode := a1 |}
          {| GuildExperiment.hash := h; GuildExperiment._name := n2;
             GuildExperiment.revision := r2; GuildExperiment.populations := p2;
             GuildExperiment.overrides := o2; GuildExperiment.overrides_formatted := f2;
             GuildExperiment.holdout := d2; GuildExperiment.aa_mode := a2 |}
        = true)
  /\ (forall h n1 n2 r1 r2 b1 b2 o1 o2 p1 p2 c1 c2 a1 a2,
        UserExperiment___eq__
          {| UserExperiment._name := n1; UserExperiment.hash := h;
             UserExperiment.revision := r1; UserExperiment.assignment := b1;
             UserExperiment.override := o1; UserExperiment.population := p1;
             UserExperiment._result := c1; UserExperiment.aa_mode := a1 |}
          {| UserExperiment._name := n2; UserExperiment.hash := h;
             UserExperiment.revision := r2; UserExperiment.assignment := b2;
             UserExperiment.override := o2; UserExperiment.population := p2;
             UserExperiment._result := c2; UserExperiment.aa_mode := a2 |}
        = true).
Proof.
  split; [|split; [|split]].
  - intros a b. split; [|reflexivity].
    unfold GuildExperiment___eq__. apply Z.eqb_eq.
  - intros a b. split; [|reflexivity].
    unfold UserExperiment___eq__. apply Z.eqb_eq.
  - intros. unfold GuildExperiment___eq__. apply Z.eqb_refl.
  - intros. unfold UserExperiment___eq__. apply Z.eqb_refl.
Qed.

(** ** Unsetting the name *)

Lemma result_for_name_unset (self : GuildExperiment.t) (guild : Guild.t) :
  truthy_str (GuildExperiment._name self) = false ->
  GuildExperiment_result_for self guild = Raise ValueError_name_unset.
Proof.
  unfold GuildExperiment_result_for, GuildExperiment_name.
  destruct (GuildExperiment._name self) as [name|]; [|reflexivity].
  intros ->. reflexivity.
Qed.

Lemma user_name_setter_falsy (self : UserExperiment.t) (value : option string) :
  truthy_str value = false ->
  UserExperiment_name_setter self value = Return (UserExperiment.with_name self None).
Proof.
  unfold UserExperiment_name_setter.
  destruct value as [v|]; [|reflexivity].
  intros ->. reflexivity.
Qed.




(** ** What a resolution may change in the store *)

Lemma backfilled_refl (st : Store) : backfilled st st.
Proof. split; try reflexivity. intros l. left. reflexivity. Qed.

Lemma backfilled_trans (st1 st2 st3 : Store) :
  backfilled st1 st2 -> backfilled st2 st3 -> backfilled st1 st3.
Proof.
  intros [Hr12 Hs12 Ho12] [Hr23 Hs23 Ho23]. split.
  - congruence.
  - congruence.
  - intros l. specialize (Ho12 l). specialize (Ho23 l).
    destruct Ho23 as [-> | (Hfalsy2 & name2 & Hreg2 & ->)]; [exact Ho12|].
    rewrite Hr12 in Hreg2.
    destruct Ho12 as [Heq | (Hfalsy1 & name1 & Hreg1 & Heq)].
    + rewrite Heq in *. right. eauto.
    + rewrite Heq. right. split; [exact Hfalsy1|].
      exists name2. split; [exact Hreg2|]. reflexivity.
Qed.

(** A backfill leaves every field but the name as it is. *)
Lemma backfill_of_with_name (st : Store) (l : loc) (e e' : GuildExperiment.t) :
  backfill_of st l e e' ->
  e' = GuildExperiment.with_name e (GuildExperiment._name e').
Proof.
  intros [-> | (_ & name & _ & ->)]; [destruct e|]; reflexivity.
Qed.

Lemma deref_with_objects_insert (st : Store) (l l' : loc) (e : GuildExperiment.t) :
  deref (with_objects st (<[l := e]> (objects st))) l'
  = if decide (l = l') then e else deref st l'.
Proof. unfold deref. simpl. apply lookup_total_insert. Qed.

Lemma backfill_name_backfilled (st : Store) (l : loc) (name : string) :
  guild_experiments st !! murmurhash32 name = Some l ->
  backfilled st (backfill_name st l name).
Proof.
  intros Hreg. unfold backfill_name.
  destruct (truthy_str _) eqn:Htruthy; [apply backfilled_refl|].
  split; try reflexivity.
  intros l'. rewrite deref_with_objects_insert.
  destruct (decide (l = l')) as [<- | Hne]; [|left; reflexivity].
  right. split; [exact Htruthy|]. exists name. split; [exact Hreg|reflexivity].
Qed.

Lemma experiment_found (self : HoldoutExperiment.t) (st : Store) (l : loc) :
  guild_experiments st !! murmurhash32 (HoldoutExperiment.name self) = Some l ->
  HoldoutExperiment_experiment self st
  = (Some l, backfill_name st l (HoldoutExperiment.name self)).
Proof.
  intros Hreg. unfold HoldoutExperiment_experiment, backfill_name, GuildExperiment_name.
  rewrite Hreg. destruct (truthy_str _); reflexivity.
Qed.

Lemma experiment_not_found (self : HoldoutExperiment.t) (st : Store) :
  guild_experiments st !! murmurhash32 (HoldoutExperiment.name self) = None ->
  HoldoutExperiment_experiment self st = (None, st).
Proof. intros Hreg. unfold HoldoutExperiment_experiment. rewrite Hreg. reflexivity. Qed.

(** After the lookup the found experiment's name is the one it had, or the
    holdout's name. *)
Lemma backfill_name_deref (st : Store) (l : loc) (name : string) :
  GuildExperiment._name (deref (backfill_name st l name) l)
  = if truthy_str (GuildExperiment._name (deref st l))
    then GuildExperiment._name (deref st l)
    else Some name.
Proof.
  unfold backfill_name. destruct (truthy_str _); [reflexivity|].
  rewrite deref_with_objects_insert. destruct (decide (l = l)); [reflexivity|congruence].
Qed.

Lemma backfill_name_idempotent (st : Store) (l : loc) (name : string) :
  name <> ""%string ->
  backfill_name (backfill_name st l name) l name = backfill_name st l name.
Proof.
  intros Hne. unfold backfill_name at 1.
  rewrite backfill_name_deref.
  destruct (truthy_str (GuildExperiment._name (deref st l))) eqn:Htruthy.
  - rewrite Htruthy. reflexivity.
  - rewrite (truthy_str_nonempty _ Hne). reflexivity.
Qed.

Lemma is_eligible_with_backfilled
    (bucket_for : loc -> Guild.t -> Store -> result Z * Store)
    (self : HoldoutExperiment.t) (guild : Guild.t) (st : Store) :
  (forall l guild st, backfilled st (snd (bucket_for l guild st))) ->
  backfilled st (snd (is_eligible_with bucket_for self guild st)).
Proof.
  intros Hrec. unfold is_eligible_with.
  destruct (guild_experiments st !! murmurhash32 (HoldoutExperiment.name self))
    as [l|] eqn:Hreg.
  - rewrite (experiment_found _ _ _ Hreg).
    pose proof (Hrec l guild (backfill_name st l (HoldoutExperiment.name self))) as Hbf.
    destruct (bucket_for l guild _) as [b st2]. simpl in *.
    eapply backfilled_trans; [|exact Hbf].
    apply backfill_name_backfilled. exact Hreg.
  - rewrite (experiment_not_found _ _ Hreg). apply backfilled_refl.
Qed.

Lemma GuildExperiment_bucket_for_S (fuel : nat) (self : loc) (guild : Guild.t) (st : Store) :
  GuildExperiment_bucket_for (S fuel) self guild st
  = if GuildExperiment.aa_mode (deref st self) then (Return (-1), st)
    else
      let '(eligible, st) :=
        match GuildExperiment.holdout (deref st self) with
        | Some holdout => HoldoutExperiment_is_eligible fuel holdout guild st
        | None => (Return true, st)
        end in
      match eligible with
      | Return false => (Return (-1), st)
      | Return true => (bucket_for_tail st (deref st self) guild, st)
      | Raise e => (Raise e, st)
      | OutOfFuel => (OutOfFuel, st)
      end.
Proof. reflexivity. Qed.

(** The only thing [GuildExperiment.bucket_for] (and so
    [HoldoutExperiment.is_eligible]) changes is names that were unset. *)
Lemma bucket_for_backfilled (fuel : nat) :
  forall (self : loc) (guild : Guild.t) (st : Store),
    backfilled st (snd (GuildExperiment_bucket_for fuel self guild st)).
Proof.
  induction fuel as [|fuel IH]; intros self guild st.
  - apply backfilled_refl.
  - rewrite GuildExperiment_bucket_for_S.
    destruct (GuildExperiment.aa_mode (deref st self)); [apply backfilled_refl|].
    destruct (GuildExperiment.holdout (deref st self)) as [holdout|].
    + pose proof (is_eligible_with_backfilled _ holdout guild st IH) as Hbf.
      unfold HoldoutExperiment_is_eligible.
      destruct (is_eligible_with _ holdout guild st) as [eligible st'].
      destruct eligible as [[|]| |]; exact Hbf.
    + apply backfilled_refl.
Qed.

Lemma is_eligible_backfilled (fuel : nat)
    (self : HoldoutExperiment.t) (guild : Guild.t) (st : Store) :
  backfilled st (snd (HoldoutExperiment_is_eligible fuel self guild st)).
Proof.
  apply is_eligible_with_backfilled. apply bucket_for_backfilled.
Qed.

(** ** Fuel *)

(** More fuel never changes an answer that was reached. *)
Lemma bucket_for_fuel_S (fuel : nat) :
  forall (self : loc) (guild : Guild.t) (st : Store),
    fst (GuildExperiment_bucket_for fuel self guild st) <> OutOfFuel ->
    GuildExperiment_bucket_for (S fuel) self guild st
    = GuildExperiment_bucket_for fuel self guild st.
Proof.
  induction fuel as [|fuel IH]; intros self guild st Hdone.
  - simpl in Hdone. congruence.
  - rewrite (GuildExperiment_bucket_for_S (S fuel)).
    rewrite (GuildExperiment_bucket_for_S fuel) in Hdone |- *.
    destruct (GuildExperiment.aa_mode (deref st self)); [reflexivity|].
    destruct (GuildExperiment.holdout (deref st self)) as [holdout|]; [|reflexivity].
    unfold HoldoutExperiment_is_eligible, is_eligible_with in Hdone |- *.
    destruct (HoldoutExperiment_experiment holdout st) as [[l|] st1]; [|reflexivity].
    destruct (GuildExperiment_bucket_for fuel l guild st1) as [b st2] eqn:Hrec.
    assert (Hb : b <> OutOfFuel).
    { intros ->. simpl in Hdone. congruence. }
    rewrite IH by (rewrite Hrec; exact Hb).
    rewrite Hrec. reflexivity.
Qed.

Lemma bucket_for_fuel_mono (fuel extra : nat)
    (self : loc) (guild : Guild.t) (st : Store) :
  fst (GuildExperiment_bucket_for fuel self guild st) <> OutOfFuel ->
  GuildExperiment_bucket_for (extra + fuel) self guild st
  = GuildExperiment_bucket_for fuel self guild st.
Proof.
  intros Hdone. induction extra as [|extra IH]; [reflexivity|].
  change (S extra + fuel)%nat with (S (extra + fuel)).
  rewrite bucket_for_fuel_S; rewrite IH; [reflexivity | exact Hdone].
Qed.

(** ** The precedence order of GuildExperiment.bucket_for *)

Lemma opt_in_elem_of (x : option Z) (ids : list Z) :
  opt_in x ids = bool_decide (x ∈ (Some <$> ids)).
Proof.
  destruct x as [x|]; simpl.
  - apply bool_decide_ext. rewrite list_elem_of_fmap. split.
    + intros Hin. exists x. split; [reflexivity|exact Hin].
    + intros (y & [= ->] & Hin). exact Hin.
  - symmetry. apply bool_decide_eq_false_2.
    rewrite list_elem_of_fmap. intros (y & Heq & _). discriminate.
Qed.

Lemma overrides_loop_find (guild : Guild.t) (overrides : list ExperimentOverride.t) :
  overrides_loop guild overrides
  = ExperimentOverride.bucket
      <$> List.find (fun o => bool_decide (override_names guild o)) overrides.
Proof.
  induction overrides as [|override overrides IH]; simpl; [reflexivity|].
  rewrite opt_in_elem_of, <- bool_decide_or.
  change (Guild.id guild ∈ ExperimentOverride.ids override
          \/ Guild.owner_id guild ∈ (Some <$> ExperimentOverride.ids override))
    with (override_names guild override).
  destruct (bool_decide (override_names guild override)); [reflexivity|exact IH].
Qed.

Lemma first_assigned_scan_or (answers : list (result Z)) :
  first_assigned answers = scan_or (Return (-1)) answers.
Proof.
  induction answers as [|answer answers IH]; simpl; [reflexivity|].
  rewrite IH. reflexivity.
Qed.

Lemma scan_or_app (fallback : result Z) (xs ys : list (result Z)) :
  scan_or fallback (xs ++ ys) = scan_or (scan_or fallback ys) xs.
Proof.
  induction xs as [|x xs IH]; simpl; [reflexivity|].
  rewrite IH. reflexivity.
Qed.

Section Loops.

Variables (st : Store) (guild : Guild.t) (hash_result : Z).

Lemma populations_loop_scan (populations : list ExperimentPopulation.t)
    (fallback : result Z) :
  (r ← populations_loop st guild hash_result populations;
   match r with Some pop_bucket => Return pop_bucket | None => fallback end)
  = scan_or fallback (map (population_answer st guild hash_result) populations).
Proof.
  induction populations as [|population populations IH];
    cbn [populations_loop map scan_or]; [reflexivity|].
  change (population_answer st guild hash_result population)
    with (ExperimentPopulation_bucket_for st population guild (Some hash_result)).
  destruct (ExperimentPopulation_bucket_for st population guild (Some hash_result))
    as [pop_bucket| |]; try reflexivity.
  cbn [mbind result_bind].
  destruct (Z.eqb_spec pop_bucket (-1)) as [-> | Hne].
  - rewrite bool_decide_eq_true_2 by reflexivity. exact IH.
  - rewrite bool_decide_eq_false_2 by exact Hne. reflexivity.
Qed.

Lemma formatted_loop_scan (overrides_formatted : list (list ExperimentPopulation.t))
    (fallback : result Z) :
  (r ← formatted_loop st guild hash_result overrides_formatted;
   match r with Some pop_bucket => Return pop_bucket | None => fallback end)
  = scan_or fallback (map (population_answer st guild hash_result) (concat overrides_formatted)).
Proof.
  induction overrides_formatted as [|overrides overrides_formatted IH];
    cbn [formatted_loop concat]; [reflexivity|].
  rewrite map_app, scan_or_app, <- IH, <- populations_loop_scan.
  destruct (populations_loop st guild hash_result overrides) as [[b|]| |];
    reflexivity.
Qed.

End Loops.

Lemma bucket_for_tail_precedence (st : Store) (self : GuildExperiment.t) (guild : Guild.t) :
  bucket_for_tail st self guild
  = (position ← GuildExperiment_result_for self guild;
     match List.find (fun o => bool_decide (override_names guild o))
             (GuildExperiment.overrides self) with
     | Some override => Return (ExperimentOverride.bucket override)
     | None =>
         first_assigned
           (map (fun population =>
                   ExperimentPopulation_bucket_for st population guild (Some position))
                (concat (GuildExperiment.overrides_formatted self)
                   ++ GuildExperiment.populations self))
     end).
Proof.
  unfold bucket_for_tail.
  destruct (GuildExperiment_result_for self guild) as [position| |];
    try reflexivity.
  cbn [mbind result_bind].
  rewrite overrides_loop_find.
  destruct (List.find _ (GuildExperiment.overrides self)) as [override|];
    [reflexivity|].
  cbn [fmap option_fmap option_map].
  change (fun population =>
            ExperimentPopulation_bucket_for st population guild (Some position))
    with (population_answer st guild position).
  rewrite first_assigned_scan_or, map_app, scan_or_app.
  rewrite <- formatted_loop_scan, <- populations_loop_scan.
  destruct (formatted_loop st guild position _) as [[b|]| |]; reflexivity.
Qed.

(** C1: [GuildExperiment.bucket_for] follows the precedence order: -1 in
    A/A mode; else -1 when a holdout is present and not eligible; else the
    position is computed; then the first override whose ids contain the
    guild's id or its owner's id gives the bucket, with no population
    looked at; only then the populations of [overrides_formatted] and of
    [populations] are scanned in order for the first bucket that is not -1,
    and the answer is -1 when there is none. *)
Theorem C1_bucket_for_precedence
    (fuel : nat) (self : loc) (guild : Guild.t) (st : Store) :
  GuildExperiment_bucket_for (S fuel) self guild st
  = bucket_for_by_precedence fuel self guild st.
Proof.
  rewrite GuildExperiment_bucket_for_S. unfold bucket_for_by_precedence. cbv zeta.
  destruct (GuildExperiment.aa_mode (deref st self)); [reflexivity|].
  assert (Hframe : backfilled st
            (snd match GuildExperiment.holdout (deref st self) with
                 | Some holdout => HoldoutExperiment_is_eligible fuel holdout guild st
                 | None => (Return true, st)
                 end)).
  { destruct (GuildExperiment.holdout (deref st self));
      [apply is_eligible_backfilled | apply backfilled_refl]. }
  destruct (match GuildExperiment.holdout (deref st self) with
            | Some holdout => HoldoutExperiment_is_eligible fuel holdout guild st
            | None => (Return true, st)
            end) as [eligible st'].
  simpl in Hframe.
  destruct eligible as [[|]| |]; simpl; try reflexivity.
  rewrite bucket_for_tail_precedence.
  pose proof (backfill_of_with_name _ _ _ _ (backfilled_objects _ _ Hframe self)) as Heq.
  assert (Hov : GuildExperiment.overrides (deref st' self)
                = GuildExperiment.overrides (deref st self))
    by (rewrite Heq; reflexivity).
  assert (Hfm : GuildExperiment.overrides_formatted (deref st' self)
                = GuildExperiment.overrides_formatted (deref st self))
    by (rewrite Heq; reflexivity).
  assert (Hpo : GuildExperiment.populations (deref st' self)
                = GuildExperiment.populations (deref st self))
    by (rewrite Heq; reflexivity).
  rewrite Hov, Hfm, Hpo. reflexivity.
Qed.

(** An override that names the guild or its owner decides the bucket
    whatever the populations are, even when every population would answer
    -1 or would raise. *)
Lemma override_wins (fuel : nat) (self : loc) (guild : Guild.t) (st : Store)
    (position : Z) (override : ExperimentOverride.t) :
  GuildExperiment.aa_mode (deref st self) = false ->
  GuildExperiment.holdout (deref st self) = None ->
  GuildExperiment_result_for (deref st self) guild = Return position ->
  List.find (fun o => bool_decide (override_names guild o))
    (GuildExperiment.overrides (deref st self)) = Some override ->
  GuildExperiment_bucket_for (S fuel) self guild st
  = (Return (ExperimentOverride.bucket override), st).
Proof.
  intros Haa Hholdout Hpos Hfind.
  rewrite GuildExperiment_bucket_for_S, Haa, Hholdout. cbv zeta beta iota.
  rewrite bucket_for_tail_precedence, Hpos. cbn [mbind result_bind].
  rewrite Hfind. reflexivity.
Qed.

Lemma bucket_for_aa_mode (fuel : nat) (self : loc) (guild : Guild.t) (st : Store) :
  GuildExperiment.aa_mode (deref st self) = true ->
  GuildExperiment_bucket_for (S fuel) self guild st = (Return (-1), st).
Proof. intros Haa. rewrite GuildExperiment_bucket_for_S, Haa. reflexivity. Qed.

Example bucket_for_override_42 :
  fst (GuildExperiment_bucket_for 1 0%nat (guild_of_id 42) store_7_3) = Return 7.
Proof. vm_compute. reflexivity. Qed.

Example bucket_for_population_99 :
  fst (GuildExperiment_bucket_for 1 0%nat (guild_of_id 99) store_7_3) = Return 3.
Proof. vm_compute. reflexivity. Qed.

(** The owner's id is matched too. *)
Example bucket_for_override_owner :
  fst (GuildExperiment_bucket_for 1 0%nat
         {| Guild.id := 99; Guild.owner_id := Some 42; Guild.features := [];
            Guild.member_count := None; Guild.vanity_url_code := None |}
         store_7_3)
  = Return 7.
Proof. vm_compute. reflexivity. Qed.

(** The override answers before the population is looked at: the guild it
    names gets its bucket although the population would raise, and any
    other guild gets the population's error. *)
Example bucket_for_override_before_populations :
  fst (GuildExperiment_bucket_for 1 0%nat (guild_of_id 42) store_7_unknown) = Return 7
  /\ fst (GuildExperiment_bucket_for 1 0%nat (guild_of_id 99) store_7_unknown)
     = Raise (NotImplementedError_unknown_filter 77).
Proof. vm_compute. split; reflexivity. Qed.

(** ** Holdout eligibility *)

(** C5, counterexample to the backfill of the dependency being the only
    side effect, on a nested holdout: checking ["a"]'s holdout on
    ["b"] finds ["b"] (location 1) and returns, and in the store it leaves
    not only ["b"] but also ["c"] (location 2) has received its name, so the
    store is not the one in which only the dependency was backfilled. *)
Lemma C5_nested_backfill_counterexample :
  guild_experiments store_abc !! murmurhash32 (HoldoutExperiment.name holdout_a_on_b)
  = Some 1%nat
  /\ fst (HoldoutExperiment_is_eligible 2 holdout_a_on_b (guild_of_id 5) store_abc)
     = Return false
  /\ GuildExperiment._name (deref store_abc 2%nat) = None
  /\ GuildExperiment._name
       (deref (snd (HoldoutExperiment_is_eligible 2 holdout_a_on_b (guild_of_id 5) store_abc))
          2%nat)
     = Some "c"%string
  /\ snd (HoldoutExperiment_is_eligible 2 holdout_a_on_b (guild_of_id 5) store_abc)
     <> backfill_name store_abc 1%nat (HoldoutExperiment.name holdout_a_on_b).
Proof.
  split; [vm_compute; reflexivity|].
  split; [vm_compute; reflexivity|].
  split; [vm_compute; reflexivity|].
  split; [vm_compute; reflexivity|].
  intros Heq.
  apply (f_equal (fun st => GuildExperiment._name (deref st 2%nat))) in Heq.
  vm_compute in Heq. discriminate.
Qed.

Lemma is_eligible_found (fuel : nat) (self : HoldoutExperiment.t) (guild : Guild.t)
    (st : Store) (l : loc) :
  guild_experiments st !! murmurhash32 (HoldoutExperiment.name self) = Some l ->
  HoldoutExperiment_is_eligible fuel self guild st
  = (let r := GuildExperiment_bucket_for fuel l guild
                (backfill_name st l (HoldoutExperiment.name self)) in
     (bucket ← fst r; Return (bucket =? HoldoutExperiment.bucket self), snd r)).
Proof.
  intros Hreg. unfold HoldoutExperiment_is_eligible, is_eligible_with.
  rewrite (experiment_found _ _ _ Hreg). cbv zeta.
  destruct (GuildExperiment_bucket_for fuel l guild _) as [b st2]. reflexivity.
Qed.

Lemma is_eligible_not_found (fuel : nat) (self : HoldoutExperiment.t) (guild : Guild.t)
    (st : Store) :
  guild_experiments st !! murmurhash32 (HoldoutExperiment.name self) = None ->
  HoldoutExperiment_is_eligible fuel self guild st = (Return true, st).
Proof.
  intros Hreg. unfold HoldoutExperiment_is_eligible, is_eligible_with.
  rewrite (experiment_not_found _ _ Hreg). reflexivity.
Qed.

(** Only the recursion through holdouts can run out of fuel. *)
Lemma filter_step_total (guild : Guild.t) (f : ExperimentFilter.t) :
  filter_step guild f <> OutOfFuel.
Proof.
  destruct f; cbn [filter_step];
    repeat match goal with
           | |- context [if ?c then _ else _] => destruct c
           | |- context [match ?c with Some _ => _ | None => _ end] => destruct c
           end; discriminate.
Qed.

Lemma filters_loop_total (guild : Guild.t) (filters : list ExperimentFilter.t) :
  filters_loop guild filters <> OutOfFuel.
Proof.
  induction filters as [|f filters IH]; cbn [filters_loop]; [discriminate|].
  pose proof (filter_step_total guild f) as Hstep.
  destruct (filter_step guild f) as [[|]| |]; cbn [mbind result_bind];
    solve [discriminate | exact IH | contradiction].
Qed.

Lemma result_for_total (self : GuildExperiment.t) (guild : Guild.t) :
  GuildExperiment_result_for self guild <> OutOfFuel.
Proof.
  unfold GuildExperiment_result_for.
  destruct (GuildExperiment_name self); [destruct (negb _)|]; discriminate.
Qed.

Lemma population_bucket_for_total
    (st : Store) (self : ExperimentPopulation.t) (guild : Guild.t) (_result : option Z) :
  ExperimentPopulation_bucket_for st self guild _result <> OutOfFuel.
Proof.
  unfold ExperimentPopulation_bucket_for.
  assert (Hpos : match _result with
                 | Some r => Return r
                 | None =>
                     GuildExperiment_result_for
                       (deref st (ExperimentPopulation.experiment self)) guild
                 end <> OutOfFuel).
  { destruct _result; [discriminate | apply result_for_total]. }
  destruct (match _result with Some r => _ | None => _ end) as [r| |];
    cbn [mbind result_bind]; [|discriminate|contradiction].
  pose proof (filters_loop_total guild (ExperimentPopulation.filters self)) as Hfl.
  destruct (filters_loop guild _) as [[|]| |]; cbn [mbind result_bind];
    solve [discriminate | contradiction].
Qed.

Lemma populations_loop_total (st : Store) (guild : Guild.t) (hash_result : Z)
    (populations : list ExperimentPopulation.t) :
  populations_loop st guild hash_result populations <> OutOfFuel.
Proof.
  induction populations as [|p populations IH]; cbn [populations_loop]; [discriminate|].
  pose proof (population_bucket_for_total st p guild (Some hash_result)) as Hp.
  destruct (ExperimentPopulation_bucket_for st p guild (Some hash_result)) as [b| |];
    cbn [mbind result_bind]; [|discriminate|contradiction].
  destruct (negb _); [discriminate|exact IH].
Qed.

Lemma formatted_loop_total (st : Store) (guild : Guild.t) (hash_result : Z)
    (overrides_formatted : list (list ExperimentPopulation.t)) :
  formatted_loop st guild hash_result overrides_formatted <> OutOfFuel.
Proof.
  induction overrides_formatted as [|ps fm IH]; cbn [formatted_loop]; [discriminate|].
  pose proof (populations_loop_total st guild hash_result ps) as Hps.
  destruct (populations_loop st guild hash_result ps) as [[b|]| |];
    cbn [mbind result_bind]; solve [discriminate | exact IH | contradiction].
Qed.

Lemma bucket_for_tail_total (st : Store) (self : GuildExperiment.t) (guild : Guild.t) :
  bucket_for_tail st self guild <> OutOfFuel.
Proof.
  unfold bucket_for_tail.
  pose proof (result_for_total self guild) as Hpos.
  destruct (GuildExperiment_result_for self guild) as [position| |];
    cbn [mbind result_bind]; [|discriminate|contradiction].
  destruct (overrides_loop guild _); [discriminate|].
  pose proof (formatted_loop_total st guild position
                (GuildExperiment.overrides_formatted self)) as Hfm.
  destruct (formatted_loop st guild position _) as [[b|]| |];
    cbn [mbind result_bind]; try solve [discriminate | contradiction].
  pose proof (populations_loop_total st guild position
                (GuildExperiment.populations self)) as Hpo.
  destruct (populations_loop st guild position _) as [[b|]| |];
    cbn [mbind result_bind]; solve [discriminate | contradiction].
Qed.

(** A dependency in A/A mode, or without a holdout of its own, answers
    with one unit of fuel and changes nothing. *)
Lemma bucket_for_leaf (fuel : nat) (self : loc) (guild : Guild.t) (st : Store) :
  GuildExperiment.aa_mode (deref st self) = true
  \/ GuildExperiment.holdout (deref st self) = None ->
  snd (GuildExperiment_bucket_for (S fuel) self guild st) = st
  /\ fst (GuildExperiment_bucket_for (S fuel) self guild st) <> OutOfFuel.
Proof.
  intros Hleaf. rewrite GuildExperiment_bucket_for_S.
  destruct (GuildExperiment.aa_mode (deref st self)) eqn:Haa;
    [split; [reflexivity|discriminate]|].
  destruct Hleaf as [Hf | Hholdout]; [discriminate|].
  rewrite Hholdout. cbv zeta beta iota. split; [reflexivity|].
  apply bucket_for_tail_total.
Qed.

(** Backfills do not touch what the holdout chains are made of. *)
Lemma settles_backfilled (st st' : Store) (l : loc) (n : nat) :
  backfilled st st' -> settles st l n -> settles st' l n.
Proof.
  intros Hbf Hsettles.
  assert (Hfields : forall l,
             GuildExperiment.aa_mode (deref st' l) = GuildExperiment.aa_mode (deref st l)
             /\ GuildExperiment.holdout (deref st' l) = GuildExperiment.holdout (deref st l)).
  { intros l0.
    pose proof (backfill_of_with_name _ _ _ _ (backfilled_objects _ _ Hbf l0)) as Heq.
    rewrite Heq. split; reflexivity. }
  induction Hsettles as [l n Haa | l n Hno | l n holdout Hh Hreg
                         | l n holdout l' Hh Hreg Hdep IH].
  - apply settles_aa_mode. rewrite (proj1 (Hfields l)). exact Haa.
  - apply settles_no_holdout. rewrite (proj2 (Hfields l)). exact Hno.
  - apply (settles_not_found st' l n holdout).
    + rewrite (proj2 (Hfields l)). exact Hh.
    + rewrite (backfilled_registry _ _ Hbf). exact Hreg.
  - apply (settles_dependency st' l n holdout l').
    + rewrite (proj2 (Hfields l)). exact Hh.
    + rewrite (backfilled_registry _ _ Hbf). exact Hreg.
    + exact IH.
Qed.

(** When the holdout chain ends within [n] calls, [n] units of fuel are
    enough: [bucket_for] returns or raises. *)
Lemma bucket_for_settles (n : nat) :
  forall (st : Store) (l : loc) (guild : Guild.t),
    settles st l n ->
    fst (GuildExperiment_bucket_for n l guild st) <> OutOfFuel.
Proof.
  induction n as [|n IH]; intros st l guild Hsettles; [inversion Hsettles|].
  rewrite GuildExperiment_bucket_for_S.
  destruct (GuildExperiment.aa_mode (deref st l)) eqn:Haa; [discriminate|].
  inversion Hsettles as [l0 n0 Haa' | l0 n0 Hno | l0 n0 holdout Hh Hreg
                         | l0 n0 holdout l' Hh Hreg Hdep]; subst.
  - congruence.
  - rewrite Hno. cbv zeta beta iota. apply bucket_for_tail_total.
  - rewrite Hh, (is_eligible_not_found _ _ _ _ Hreg). cbv zeta beta iota.
    apply bucket_for_tail_total.
  - rewrite Hh, (is_eligible_found _ _ _ _ _ Hreg). cbv zeta.
    assert (Hdep1 : settles (backfill_name st l' (HoldoutExperiment.name holdout)) l' n).
    { apply (settles_backfilled st); [|exact Hdep].
      apply backfill_name_backfilled. exact Hreg. }
    pose proof (IH _ l' guild Hdep1) as Hrec.
    destruct (GuildExperiment_bucket_for n l' guild _) as [b st2]. cbn [fst snd] in *.
    destruct b as [b| |]; cbn [mbind result_bind]; [|discriminate|contradiction].
    destruct (b =? HoldoutExperiment.bucket holdout); cbn [mret result_ret];
      [apply bucket_for_tail_total | discriminate].
Qed.

(** C5, amended: [is_eligible] returns true without an error when the
    registry has no experiment under the hash of the dependency name, and
    the store stays as it is.  When the registry has one, its name is
    backfilled from the dependency name if it had none, and the call then
    answers as the dependency's [bucket_for] does: true exactly when that
    returns the required bucket.  The store it leaves differs from the
    initial one by name backfills of unnamed experiments only (the
    dependency's, and those that the nested holdout checks of the
    dependency's [bucket_for] perform); when the dependency is in A/A mode
    or has no holdout, the dependency's backfill is the only change and the
    call comes to an end. *)
Theorem C5_is_eligible_amended
    (fuel : nat) (self : HoldoutExperiment.t) (guild : Guild.t) (st : Store) :
  let key := murmurhash32 (HoldoutExperiment.name self) in
  (guild_experiments st !! key = None ->
   HoldoutExperiment_is_eligible fuel self guild st = (Return true, st))
  /\ (forall l,
        guild_experiments st !! key = Some l ->
        let st1 := backfill_name st l (HoldoutExperiment.name self) in
        let dependency := GuildExperiment_bucket_for fuel l guild st1 in
        HoldoutExperiment_is_eligible fuel self guild st
        = (bucket ← fst dependency; Return (bucket =? HoldoutExperiment.bucket self),
           snd dependency)
        /\ (fst (HoldoutExperiment_is_eligible fuel self guild st) = Return true
            <-> fst dependency = Return (HoldoutExperiment.bucket self))
        /\ backfilled st (snd (HoldoutExperiment_is_eligible fuel self guild st))
        /\ (GuildExperiment.aa_mode (deref st l) = true
            \/ GuildExperiment.holdout (deref st l) = None ->
            snd (HoldoutExperiment_is_eligible (S fuel) self guild st) = st1
            /\ is_Return_or_Raise
                 (fst (HoldoutExperiment_is_eligible (S fuel) self guild st)) = true)).
Proof.
  intros key. split; [apply is_eligible_not_found|].
  intros l Hreg st1 dependency.
  pose proof (is_eligible_found fuel self guild st l Hreg) as Hfound.
  cbv zeta in Hfound. fold st1 in Hfound. fold dependency in Hfound.
  split; [exact Hfound|]. split; [|split].
  - rewrite Hfound. cbn [fst].
    destruct (fst dependency) as [bucket| |]; cbn [mbind result_bind].
    + split.
      * intros [= Heq]. apply Z.eqb_eq in Heq. congruence.
      * intros [= ->]. rewrite Z.eqb_refl. reflexivity.
    + split; discriminate.
    + split; discriminate.
  - apply is_eligible_backfilled.
  - intros Hleaf.
    rewrite (is_eligible_found (S fuel) self guild st l Hreg). cbv zeta.
    fold st1. cbn [fst snd].
    assert (Hleaf1 : GuildExperiment.aa_mode (deref st1 l) = true
                     \/ GuildExperiment.holdout (deref st1 l) = None).
    { pose proof (backfill_name_backfilled st l _ Hreg) as Hbf. fold st1 in Hbf.
      pose proof (backfill_of_with_name _ _ _ _ (backfilled_objects _ _ Hbf l)) as Heq.
      rewrite Heq. exact Hleaf. }
    destruct (bucket_for_leaf fuel l guild st1 Hleaf1) as [Hst Hfuel].
    split; [exact Hst|].
    destruct (fst (GuildExperiment_bucket_for (S fuel) l guild st1));
      [reflexivity | reflexivity | contradiction].
Qed.

Lemma C5_is_eligible_amended_witness :
  HoldoutExperiment_is_eligible 0 holdout_a_on_b (guild_of_id 5) empty_store
  = (Return true, empty_store)
  /\ snd (HoldoutExperiment_is_eligible 1 holdout_b_on_c (guild_of_id 5) store_abc)
     = backfill_name store_abc 2%nat "c"
  /\ (fst (HoldoutExperiment_is_eligible 2 holdout_a_on_b (guild_of_id 5) store_abc)
      = Return true
      <-> fst (GuildExperiment_bucket_for 2 1%nat (guild_of_id 5)
                 (backfill_name store_abc 1%nat "b"))
          = Return 0).
Proof.
  split; [|split].
  - apply (C5_is_eligible_amended 0 holdout_a_on_b (guild_of_id 5) empty_store).
    reflexivity.
  - destruct (C5_is_eligible_amended 0 holdout_b_on_c (guild_of_id 5) store_abc)
      as [_ Hfound].
    destruct (Hfound 2%nat) as (_ & _ & _ & Hleaf); [vm_compute; reflexivity|].
    apply Hleaf. left. vm_compute. reflexivity.
  - destruct (C5_is_eligible_amended 2 holdout_a_on_b (guild_of_id 5) store_abc)
      as [_ Hfound].
    destruct (Hfound 1%nat) as (_ & Hiff & _); [vm_compute; reflexivity|].
    exact Hiff.
Defined.

(** * Further properties of the code *)

(** ** Rollouts *)

(** X1: a position is in a rollout exactly when one of its ranges holds it
    between its two ends, both included. *)
Theorem X1_rollout_contains (self : ExperimentRollout.t) (item : Z) :
  ExperimentRollout___contains__ self item = true
  <-> exists start end_,
        (start, end_) ∈ ExperimentRollout.ranges self /\ start <= item <= end_.
Proof.
  unfold ExperimentRollout___contains__.
  induction (ExperimentRollout.ranges self) as [|[start end_] ranges IH];
    cbn [ranges_contain].
  - split; [discriminate|]. intros (? & ? & Hin & _). inversion Hin.
  - destruct ((start <=? item) && (item <=? end_)) eqn:Hin.
    + split; [|reflexivity]. intros _. exists start, end_.
      split; [left|]. apply andb_true_iff in Hin. lia.
    + rewrite IH. split.
      * intros (s & e & Hmem & Hle). exists s, e. split; [right; exact Hmem|exact Hle].
      * intros (s & e & Hmem & Hle). exists s, e. split; [|exact Hle].
        apply elem_of_cons in Hmem. destruct Hmem as [[= -> ->] | Hmem]; [|exact Hmem].
        apply andb_false_iff in Hin. lia.
Qed.

Lemma rollouts_loop_find (rollouts : list ExperimentRollout.t) (position : Z) :
  rollouts_loop rollouts position
  = from_option ExperimentRollout.bucket (-1)
      (List.find (fun rollout => ExperimentRollout___contains__ rollout position) rollouts).
Proof.
  induction rollouts as [|rollout rollouts IH]; cbn [rollouts_loop List.find];
    [reflexivity|].
  unfold ExperimentRollout___contains__ at 1.
  destruct (ranges_contain _ position); [reflexivity|exact IH].
Qed.

(** X2: with the position given, a population answers -1 when a filter
    rejects the guild, and otherwise the bucket of its first rollout that
    contains the position ([position in rollout]), -1 when there is none;
    so what it returns is -1 or the bucket of one of its rollouts that
    contains the position. *)
Theorem X2_population_answer
    (st : Store) (self : ExperimentPopulation.t) (guild : Guild.t) (position : Z) :
  ExperimentPopulation_bucket_for st self guild (Some position)
  = (passed ← filters_loop guild (ExperimentPopulation.filters self);
     Return (if passed : bool
             then from_option ExperimentRollout.bucket (-1)
                    (List.find (fun rollout => ExperimentRollout___contains__ rollout position)
                       (ExperimentPopulation.rollouts self))
             else -1))
  /\ (forall bucket,
        ExperimentPopulation_bucket_for st self guild (Some position) = Return bucket ->
        bucket = -1
        \/ exists rollout,
             rollout ∈ ExperimentPopulation.rollouts self
             /\ ExperimentRollout.bucket rollout = bucket
             /\ ExperimentRollout___contains__ rollout position = true).
Proof.
  assert (Heq : ExperimentPopulation_bucket_for st self guild (Some position)
                = (passed ← filters_loop guild (ExperimentPopulation.filters self);
                   Return (if passed : bool
                           then from_option ExperimentRollout.bucket (-1)
                                  (List.find
                                     (fun rollout =>
                                        ExperimentRollout___contains__ rollout position)
                                     (ExperimentPopulation.rollouts self))
                           else -1))).
  { unfold ExperimentPopulation_bucket_for. cbn [mbind result_bind].
    destruct (filters_loop guild _) as [[|]| |]; cbn [mbind result_bind];
      try reflexivity.
    rewrite rollouts_loop_find. reflexivity. }
  split; [exact Heq|].
  intros bucket. rewrite Heq.
  destruct (filters_loop guild _) as [[|]| |]; cbn [mbind result_bind];
    try discriminate.
  - destruct (List.find _ _) as [rollout|] eqn:Hfind; cbn [from_option].
    + intros [= <-]. right. exists rollout.
      apply find_some in Hfind. destruct Hfind as [Hin Hc].
      split; [apply list_elem_of_In; exact Hin|]. split; [reflexivity|exact Hc].
    + intros [= <-]. left. reflexivity.
  - intros [= <-]. left. reflexivity.
Qed.

Lemma X2_population_answer_witness :
  ExperimentPopulation_bucket_for empty_store population_halves (guild_of_id 7) (Some 6000)
  = Return 2
  /\ exists rollout,
       rollout ∈ ExperimentPopulation.rollouts population_halves
       /\ ExperimentRollout.bucket rollout = 2
       /\ ExperimentRollout___contains__ rollout 6000 = true.
Proof.
  split; [reflexivity|].
  destruct (X2_population_answer empty_store population_halves (guild_of_id 7) 6000)
    as [_ Hin].
  destruct (Hin 2) as [Hneg | Hex]; [reflexivity | discriminate | exact Hex].
Defined.

(** ** Filters *)

Lemma filters_loop_false_app (guild : Guild.t) (pre post : list ExperimentFilter.t) :
  filters_loop guild pre = Return false ->
  filters_loop guild (pre ++ post) = Return false.
Proof.
  induction pre as [|f pre IH]; cbn [filters_loop app]; [discriminate|].
  destruct (filter_step guild f) as [[|]| |]; cbn [mbind result_bind];
    try discriminate; [exact IH|reflexivity].
Qed.

(** X3: once a filter rejects the guild the later filters are not looked
    at: the population answers -1 whatever follows, also when a filter of
    an unrecognized kind follows, which then goes unreported. *)
Theorem X3_rejection_hides_later_filters
    (st : Store) (guild : Guild.t) (experiment : loc)
    (pre post : list ExperimentFilter.t) (rollouts : list ExperimentRollout.t)
    (position : Z) :
  filters_loop guild pre = Return false ->
  ExperimentPopulation_bucket_for st
    {| ExperimentPopulation.experiment := experiment;
       ExperimentPopulation.filters := pre ++ post;
       ExperimentPopulation.rollouts := rollouts |}
    guild (Some position)
  = Return (-1).
Proof.
  intros Hpre. unfold ExperimentPopulation_bucket_for.
  cbn [ExperimentPopulation.filters mbind result_bind].
  rewrite (filters_loop_false_app guild pre post Hpre). reflexivity.
Qed.

Lemma X3_rejection_hides_later_filters_witness :
  ExperimentPopulation_bucket_for empty_store
    {| ExperimentPopulation.experiment := 0%nat;
       ExperimentPopulation.filters :=
         [ExperimentFilter.ids [1; 2]] ++ [ExperimentFilter.unknown 77];
       ExperimentPopulation.rollouts :=
         [{| ExperimentRollout.bucket := 1; ExperimentRollout.ranges := [(0, 9999)] |}] |}
    (guild_of_id 50) (Some 0)
  = Return (-1).
Proof.
  apply (X3_rejection_hides_later_filters empty_store (guild_of_id 50) 0%nat
           [ExperimentFilter.ids [1; 2]] [ExperimentFilter.unknown 77]).
  reflexivity.
Defined.

Lemma known_filter_step (guild : Guild.t) (f : ExperimentFilter.t) :
  known_filter f = true -> exists passed, filter_step guild f = Return passed.
Proof.
  destruct f; cbn [known_filter filter_step]; try discriminate; intros _;
    repeat match goal with
           | |- context [if ?c then _ else _] => destruct c
           | |- context [match ?c with Some _ => _ | None => _ end] => destruct c
           end; eauto.
Qed.

Lemma known_filters_loop (guild : Guild.t) (filters : list ExperimentFilter.t) :
  forallb known_filter filters = true ->
  exists passed, filters_loop guild filters = Return passed.
Proof.
  induction filters as [|f filters IH]; cbn [forallb filters_loop]; [eauto|].
  intros Hknown. apply andb_true_iff in Hknown. destruct Hknown as [Hf Hfs].
  destruct (known_filter_step guild f Hf) as [[|] ->]; cbn [mbind result_bind];
    [exact (IH Hfs) | eauto].
Qed.

Lemma filters_loop_perm (guild : Guild.t) (filters filters' : list ExperimentFilter.t) :
  filters ≡ₚ filters' ->
  forallb known_filter filters = true ->
  filters_loop guild filters = filters_loop guild filters'.
Proof.
  intros Hperm. induction Hperm as [|f l l' Hperm IH|f1 f2 l|l1 l2 l3 H12 IH12 H23 IH23];
    intros Hknown.
  - reflexivity.
  - cbn [forallb] in Hknown. apply andb_true_iff in Hknown. destruct Hknown as [_ Hl].
    cbn [filters_loop]. rewrite (IH Hl). reflexivity.
  - cbn [forallb] in Hknown.
    apply andb_true_iff in Hknown. destruct Hknown as [H2 Hknown].
    apply andb_true_iff in Hknown. destruct Hknown as [H1 _].
    cbn [filters_loop].
    destruct (known_filter_step guild f1 H1) as [[|] ->];
      destruct (known_filter_step guild f2 H2) as [[|] ->]; reflexivity.
  - rewrite (IH12 Hknown). apply IH23.
    apply forallb_forall. intros f Hin.
    apply (proj1 (forallb_forall _ _) Hknown).
    apply list_elem_of_In. rewrite H12. apply list_elem_of_In. exact Hin.
Qed.

(** X4: when all filters of a population are of recognized kinds their
    order does not matter: a population with the same filters in another
    order gives every guild the same answer. *)
Theorem X4_filter_order_irrelevant
    (st : Store) (guild : Guild.t) (experiment : loc)
    (filters filters' : list ExperimentFilter.t) (rollouts : list ExperimentRollout.t)
    (_result : option Z) :
  forallb known_filter filters = true ->
  filters ≡ₚ filters' ->
  ExperimentPopulation_bucket_for st
    {| ExperimentPopulation.experiment := experiment;
       ExperimentPopulation.filters := filters;
       ExperimentPopulation.rollouts := rollouts |} guild _result
  = ExperimentPopulation_bucket_for st
      {| ExperimentPopulation.experiment := experiment;
         ExperimentPopulation.filters := filters';
         ExperimentPopulation.rollouts := rollouts |} guild _result.
Proof.
  intros Hknown Hperm. unfold ExperimentPopulation_bucket_for.
  cbn [ExperimentPopulation.filters ExperimentPopulation.experiment
       ExperimentPopulation.rollouts].
  rewrite (filters_loop_perm guild filters filters' Hperm Hknown). reflexivity.
Qed.

Lemma X4_filter_order_irrelevant_witness :
  ExperimentPopulation_bucket_for empty_store
    {| ExperimentPopulation.experiment := 0%nat;
       ExperimentPopulation.filters :=
         [ExperimentFilter.ids [50]; ExperimentFilter.id_range None 10];
       ExperimentPopulation.rollouts := [] |} (guild_of_id 50) (Some 0)
  = ExperimentPopulation_bucket_for empty_store
      {| ExperimentPopulation.experiment := 0%nat;
         ExperimentPopulation.filters :=
           [ExperimentFilter.id_range None 10; ExperimentFilter.ids [50]];
         ExperimentPopulation.rollouts := [] |} (guild_of_id 50) (Some 0).
Proof.
  apply X4_filter_order_irrelevant; [reflexivity|].
  apply perm_swap.
Defined.

(** X5: a member-count clause lets every guild of unknown member count
    through, and a guild of known member count exactly when the count is at
    most [end]; [start] has no influence. *)
Theorem X5_member_count_range
    (guild : Guild.t) (start : option Z) (end_ : Z) :
  filter_step guild (ExperimentFilter.member_count_range start end_)
  = Return match Guild.member_count guild with
           | None => true
           | Some member_count => member_count <=? end_
           end.
Proof.
  cbn [filter_step]. destruct (Guild.member_count guild) as [member_count|];
    [|reflexivity].
  rewrite range_branch_upper_only. reflexivity.
Qed.

(** X6: a feature clause passes exactly when the guild has one of the
    listed features, and rejects the guild otherwise; so an empty list of
    features rejects every guild. *)
Theorem X6_feature_filter (guild : Guild.t) (features : list string) :
  (filter_step guild (ExperimentFilter.feature features) = Return true
   <-> exists feature, feature ∈ features /\ feature ∈ Guild.features guild)
  /\ (filter_step guild (ExperimentFilter.feature features) = Return false
      <-> ~ exists feature, feature ∈ features /\ feature ∈ Guild.features guild).
Proof.
  cbn [filter_step].
  destruct (existsb _ features) eqn:Hany.
  - apply existsb_exists in Hany. destruct Hany as (feature & Hin & Hhas).
    apply bool_decide_eq_true_1 in Hhas. apply list_elem_of_In in Hin.
    assert (Hsome : exists feature, feature ∈ features /\ feature ∈ Guild.features guild).
    { exists feature. split; assumption. }
    split; split.
    + intros _. exact Hsome.
    + reflexivity.
    + discriminate.
    + intros Hnone. contradiction.
  - assert (Hnone : ~ exists feature, feature ∈ features /\ feature ∈ Guild.features guild).
    { intros (feature & Hin & Hhas).
      assert (Htrue : existsb (fun feature => bool_decide (feature ∈ Guild.features guild))
                        features = true).
      { apply existsb_exists. exists feature.
        split; [apply list_elem_of_In; exact Hin | apply bool_decide_eq_true_2; exact Hhas]. }
      congruence. }
    split; split.
    + discriminate.
    + intros Hsome. contradiction.
    + intros _. exact Hnone.
    + reflexivity.
Qed.

Lemma filters_loop_raises (guild : Guild.t) (filters : list ExperimentFilter.t)
    (e : exception) :
  filters_loop guild filters = Raise e ->
  exists type, e = NotImplementedError_unknown_filter type.
Proof.
  induction filters as [|f filters IH]; cbn [filters_loop]; [discriminate|].
  destruct (filter_step guild f) as [[|]|e'|] eqn:Hstep; cbn [mbind result_bind];
    try discriminate; [exact IH|].
  intros [= <-]. destruct f; cbn [filter_step] in Hstep;
    repeat match type of Hstep with
           | context [if ?c then _ else _] => destruct c
           | context [match ?c with Some _ => _ | None => _ end] => destruct c
           end; try discriminate.
  injection Hstep as <-. eauto.
Qed.

(** X7: with the position given, a population does not consult its
    experiment: the answer is the same in every store and is never the
    name-required error.  Without the position the call first asks the
    experiment for it, and then continues as with that position. *)
Theorem X7_position_given
    (st st' : Store) (self : ExperimentPopulation.t) (guild : Guild.t) (position : Z) :
  ExperimentPopulation_bucket_for st self guild (Some position)
  = ExperimentPopulation_bucket_for st' self guild (Some position)
  /\ ExperimentPopulation_bucket_for st self guild (Some position)
     <> Raise ValueError_name_unset
  /\ ExperimentPopulation_bucket_for st self guild None
     = (r ← GuildExperiment_result_for (deref st (ExperimentPopulation.experiment self)) guild;
        ExperimentPopulation_bucket_for st self guild (Some r)).
Proof.
  split; [reflexivity|]. split.
  - unfold ExperimentPopulation_bucket_for. cbn [mbind result_bind].
    destruct (filters_loop guild _) as [[|]|e|] eqn:Hloop; cbn [mbind result_bind];
      try discriminate.
    destruct (filters_loop_raises _ _ _ Hloop) as [type ->]. discriminate.
  - unfold ExperimentPopulation_bucket_for.
    destruct (GuildExperiment_result_for _ guild); reflexivity.
Qed.

(** ** What GuildExperiment.bucket_for can return *)

Lemma population_bucket_in_rollouts
    (st : Store) (self : ExperimentPopulation.t) (guild : Guild.t)
    (position bucket : Z) :
  ExperimentPopulation_bucket_for st self guild (Some position) = Return bucket ->
  bucket = -1
  \/ bucket ∈ map ExperimentRollout.bucket (ExperimentPopulation.rollouts self).
Proof.
  unfold ExperimentPopulation_bucket_for. cbn [mbind result_bind].
  destruct (filters_loop guild _) as [[|]| |]; cbn [mbind result_bind];
    try discriminate; [|intros [= <-]; left; reflexivity].
  intros [= <-].
  induction (ExperimentPopulation.rollouts self) as [|rollout rollouts IH];
    cbn [rollouts_loop map]; [left; reflexivity|].
  destruct (ranges_contain _ position); [right; left|].
  destruct IH as [IH | IH]; [left; exact IH | right; right; exact IH].
Qed.

Lemma first_assigned_in (answers : list (result Z)) (bucket : Z) :
  first_assigned answers = Return bucket ->
  bucket = -1 \/ Return bucket ∈ answers.
Proof.
  induction answers as [|answer answers IH]; cbn [first_assigned].
  - intros [= <-]. left. reflexivity.
  - destruct answer as [b| |]; cbn [mbind result_bind]; try discriminate.
    destruct (bool_decide (b = -1)).
    + intros Hrest. destruct (IH Hrest) as [Hneg | Hin]; [left; exact Hneg|].
      right. right. exact Hin.
    + intros [= <-]. right. left.
Qed.

(** X8: what [GuildExperiment.bucket_for] returns is -1 or one of the
    buckets the experiment is configured with, that is, the bucket of one
    of its overrides or of a rollout of one of its populations. *)
Theorem X8_only_configured_buckets
    (fuel : nat) (self : loc) (guild : Guild.t) (st : Store) (bucket : Z) :
  fst (GuildExperiment_bucket_for fuel self guild st) = Return bucket ->
  bucket = -1 \/ bucket ∈ configured_buckets (deref st self).
Proof.
  destruct fuel as [|fuel]; [discriminate|].
  rewrite GuildExperiment_bucket_for_S.
  destruct (GuildExperiment.aa_mode (deref st self));
    [intros [= <-]; left; reflexivity|].
  assert (Hframe : backfilled st
            (snd match GuildExperiment.holdout (deref st self) with
                 | Some holdout => HoldoutExperiment_is_eligible fuel holdout guild st
                 | None => (Return true, st)
                 end)).
  { destruct (GuildExperiment.holdout (deref st self));
      [apply is_eligible_backfilled | apply backfilled_refl]. }
  destruct (match GuildExperiment.holdout (deref st self) with
            | Some holdout => HoldoutExperiment_is_eligible fuel holdout guild st
            | None => (Return true, st)
            end) as [eligible st'].
  cbn [snd] in Hframe.
  destruct eligible as [[|]| |]; cbn [fst]; try discriminate;
    [|intros [= <-]; left; reflexivity].
  pose proof (backfill_of_with_name _ _ _ _ (backfilled_objects _ _ Hframe self)) as Heq.
  assert (Hcfg : configured_buckets (deref st' self) = configured_buckets (deref st self))
    by (rewrite Heq; reflexivity).
  rewrite <- Hcfg. generalize (deref st' self). intros experiment.
  rewrite bucket_for_tail_precedence.
  destruct (GuildExperiment_result_for experiment guild) as [position| |];
    cbn [mbind result_bind]; try discriminate.
  unfold configured_buckets.
  destruct (List.find _ (GuildExperiment.overrides experiment)) as [override|] eqn:Hfind.
  - intros [= <-]. right. apply elem_of_app. left.
    apply find_some in Hfind. destruct Hfind as [Hin _].
    apply list_elem_of_fmap. exists override.
    split; [reflexivity | apply list_elem_of_In; exact Hin].
  - intros Hscan. destruct (first_assigned_in _ _ Hscan) as [Hneg | Hin];
      [left; exact Hneg|].
    apply list_elem_of_fmap in Hin. destruct Hin as (population & Hanswer & Hpop).
    symmetry in Hanswer.
    destruct (population_bucket_in_rollouts _ _ _ _ _ Hanswer) as [Hneg | Hroll];
      [left; exact Hneg|].
    right. apply elem_of_app. right.
    apply list_elem_of_In, in_concat.
    exists (map ExperimentRollout.bucket (ExperimentPopulation.rollouts population)).
    split; [|apply list_elem_of_In; exact Hroll].
    apply in_map_iff. exists population.
    split; [reflexivity | apply list_elem_of_In; exact Hpop].
Qed.

Lemma X8_only_configured_buckets_witness :
  fst (GuildExperiment_bucket_for 1 0%nat (guild_of_id 99) store_7_3) = Return 3
  /\ (3 = -1 \/ 3 ∈ configured_buckets (deref store_7_3 0%nat)).
Proof.
  split; [vm_compute; reflexivity|].
  apply (X8_only_configured_buckets 1 0%nat (guild_of_id 99) store_7_3 3).
  vm_compute. reflexivity.
Defined.

(** ** The store across a resolution *)

Lemma backfill_name_named (st : Store) (l : loc) (name : string) :
  truthy_str (GuildExperiment._name (deref st l)) = true ->
  backfill_name st l name = st.
Proof. intros Hnamed. unfold backfill_name. rewrite Hnamed. reflexivity. Qed.

Lemma bucket_for_all_named (fuel : nat) :
  forall (self : loc) (guild : Guild.t) (st : Store),
    all_named st ->
    snd (GuildExperiment_bucket_for fuel self guild st) = st.
Proof.
  induction fuel as [|fuel IH]; intros self guild st Hnamed; [reflexivity|].
  rewrite GuildExperiment_bucket_for_S.
  destruct (GuildExperiment.aa_mode (deref st self)); [reflexivity|].
  destruct (GuildExperiment.holdout (deref st self)) as [holdout|]; [|reflexivity].
  assert (Hst : snd (HoldoutExperiment_is_eligible fuel holdout guild st) = st).
  { destruct (guild_experiments st !! murmurhash32 (HoldoutExperiment.name holdout))
      as [l|] eqn:Hreg.
    - rewrite (is_eligible_found _ _ _ _ _ Hreg). cbv zeta. cbn [snd].
      rewrite (backfill_name_named _ _ _ (Hnamed _ _ Hreg)).
      apply IH. exact Hnamed.
    - rewrite (is_eligible_not_found _ _ _ _ Hreg). reflexivity. }
  destruct (HoldoutExperiment_is_eligible fuel holdout guild st) as [eligible st'].
  cbn [snd] in Hst. subst st'.
  destruct eligible as [[|]| |]; reflexivity.
Qed.

(** X9: when every experiment of the registry has its name,
    [GuildExperiment.bucket_for] leaves the store exactly as it found it. *)
Theorem X9_named_registry_is_not_written
    (fuel : nat) (self : loc) (guild : Guild.t) (st : Store) :
  all_named st ->
  snd (GuildExperiment_bucket_for fuel self guild st) = st.
Proof. apply bucket_for_all_named. Qed.

Lemma store_abc_named_all_named :
  all_named (snd (GuildExperiment_bucket_for 3 0%nat (guild_of_id 5) store_abc)).
Proof.
  intros key l Hreg.
  pose proof (bucket_for_backfilled 3 0%nat (guild_of_id 5) store_abc) as Hbf.
  rewrite (backfilled_registry _ _ Hbf) in Hreg.
  change (guild_experiments store_abc)
    with ({[ 1009084850 := 0%nat; 2514386435 := 1%nat; 3778205279 := 2%nat ]}
          : gmap Z nat) in Hreg.
  repeat (apply lookup_insert_Some in Hreg;
          destruct Hreg as [[_ <-] | [_ Hreg]]; [vm_compute; reflexivity|]).
  apply lookup_singleton_Some in Hreg. destruct Hreg as [_ <-].
  vm_compute. reflexivity.
Qed.

Lemma X9_named_registry_is_not_written_witness :
  let st := snd (GuildExperiment_bucket_for 3 0%nat (guild_of_id 5) store_abc) in
  snd (GuildExperiment_bucket_for 3 0%nat (guild_of_id 5) st) = st.
Proof.
  intros st.
  apply (X9_named_registry_is_not_written 3 0%nat (guild_of_id 5) st).
  exact store_abc_named_all_named.
Defined.

(** X10: in a store whose registry files every experiment under its own
    hash, a resolution keeps the names in step with the hashes: if every
    name that was set hashed to the hash of its experiment before
    [bucket_for], this is so afterwards too, the backfilled names included;
    and the registry is still keyed by the hashes. *)
Theorem X10_names_stay_matched
    (fuel : nat) (self : loc) (guild : Guild.t) (st : Store) :
  registry_keyed st ->
  names_match st ->
  registry_keyed (snd (GuildExperiment_bucket_for fuel self guild st))
  /\ names_match (snd (GuildExperiment_bucket_for fuel self guild st)).
Proof.
  intros Hkeyed Hmatch.
  pose proof (bucket_for_backfilled fuel self guild st) as Hbf.
  destruct (GuildExperiment_bucket_for fuel self guild st) as [r st']. cbn [snd] in *.
  destruct Hbf as [Hreg _ Hobj].
  assert (Hhash : forall l, GuildExperiment.hash (deref st' l)
                            = GuildExperiment.hash (deref st l)).
  { intros l. rewrite (backfill_of_with_name _ _ _ _ (Hobj l)). reflexivity. }
  split.
  - intros key l Hl. rewrite Hreg in Hl. rewrite Hhash. apply Hkeyed. exact Hl.
  - intros l name Hname Hne. rewrite Hhash.
    destruct (Hobj l) as [Heq | (_ & name' & Hl & Heq)].
    + rewrite Heq in Hname. apply Hmatch; assumption.
    + rewrite Heq in Hname. cbn [GuildExperiment.with_name GuildExperiment._name] in Hname.
      injection Hname as <-. symmetry. apply Hkeyed. exact Hl.
Qed.

Lemma store_abc_registry_keyed : registry_keyed store_abc.
Proof.
  intros key l Hreg.
  change (guild_experiments store_abc)
    with ({[ 1009084850 := 0%nat; 2514386435 := 1%nat; 3778205279 := 2%nat ]}
          : gmap Z nat) in Hreg.
  repeat (apply lookup_insert_Some in Hreg;
          destruct Hreg as [[<- <-] | [_ Hreg]]; [vm_compute; reflexivity|]).
  apply lookup_singleton_Some in Hreg. destruct Hreg as [<- <-].
  vm_compute. reflexivity.
Qed.

Lemma store_abc_names_match : names_match store_abc.
Proof.
  intros l name Hname _. unfold deref in *. rewrite lookup_total_alt in *.
  destruct (objects store_abc !! l) as [experiment|] eqn:Hl; [|discriminate].
  change (objects store_abc)
    with ({[ 0%nat := experiment_a; 1%nat := experiment_b; 2%nat := experiment_c ]}
          : gmap nat GuildExperiment.t) in Hl.
  cbn [default] in *.
  apply lookup_insert_Some in Hl. destruct Hl as [[_ <-] | [_ Hl]].
  { injection Hname as <-. vm_compute. reflexivity. }
  apply lookup_insert_Some in Hl. destruct Hl as [[_ <-] | [_ Hl]]; [discriminate|].
  apply lookup_singleton_Some in Hl. destruct Hl as [_ <-]. discriminate.
Qed.

Lemma X10_names_stay_matched_witness :
  names_match (snd (GuildExperiment_bucket_for 3 0%nat (guild_of_id 5) store_abc)).
Proof.
  apply (X10_names_stay_matched 3 0%nat (guild_of_id 5) store_abc).
  - exact store_abc_registry_keyed.
  - exact store_abc_names_match.
Defined.

(** ** When a resolution ends *)

Lemma trapped_backfilled (st st' : Store) (P : loc -> Prop) :
  backfilled st st' -> trapped st P -> trapped st' P.
Proof.
  intros Hbf Htrap l Hl.
  destruct (Htrap l Hl) as (Haa & holdout & l' & Hh & Hreg & Hl').
  pose proof (backfill_of_with_name _ _ _ _ (backfilled_objects _ _ Hbf l)) as Heq.
  split.
  - rewrite Heq. exact Haa.
  - exists holdout, l'. split; [rewrite Heq; exact Hh|].
    split; [rewrite (backfilled_registry _ _ Hbf); exact Hreg | exact Hl'].
Qed.

(** X11: on a cycle of holdouts [bucket_for] never comes to an answer.
    When an experiment belongs to a set of experiments, none in A/A mode,
    whose holdouts resolve within the set (an experiment that holds out on
    itself, two that hold out on each other), the recursion through
    [is_eligible] does not end at any depth. *)
Theorem X11_holdout_cycle_never_answers (fuel : nat) :
  forall (st : Store) (P : loc -> Prop) (self : loc) (guild : Guild.t),
    trapped st P ->
    P self ->
    fst (GuildExperiment_bucket_for fuel self guild st) = OutOfFuel.
Proof.
  induction fuel as [|fuel IH]; intros st P self guild Htrap Hself; [reflexivity|].
  rewrite GuildExperiment_bucket_for_S.
  destruct (Htrap self Hself) as (Haa & holdout & l' & Hh & Hreg & Hl').
  rewrite Haa, Hh, (is_eligible_found _ _ _ _ _ Hreg). cbv zeta.
  assert (Htrap1 : trapped (backfill_name st l' (HoldoutExperiment.name holdout)) P).
  { apply (trapped_backfilled st); [|exact Htrap].
    apply backfill_name_backfilled. exact Hreg. }
  pose proof (IH _ P l' guild Htrap1 Hl') as Hrec.
  destruct (GuildExperiment_bucket_for fuel l' guild _) as [b st2]. cbn [fst snd] in *.
  rewrite Hrec. reflexivity.
Qed.

Lemma store_self_holdout_trapped : trapped store_self_holdout (fun l => l = 0%nat).
Proof.
  intros l ->. split; [reflexivity|].
  exists {| HoldoutExperiment.dependent := 0%nat;
            HoldoutExperiment.name := "a";
            HoldoutExperiment.bucket := 0 |}, 0%nat.
  split; [reflexivity|]. split; [vm_compute; reflexivity | reflexivity].
Qed.

Lemma X11_holdout_cycle_never_answers_witness :
  fst (GuildExperiment_bucket_for 50 0%nat (guild_of_id 5) store_self_holdout) = OutOfFuel.
Proof.
  apply (X11_holdout_cycle_never_answers 50 store_self_holdout (fun l => l = 0%nat)).
  - exact store_self_holdout_trapped.
  - reflexivity.
Defined.

(** X12: when the chain of holdouts that starts at an experiment ends
    within [n] steps (at an experiment in A/A mode, at one without a
    holdout, or at a dependency that the registry does not have),
    [bucket_for] returns or raises within recursion depth [n], and a
    deeper bound gives the same answer and the same store. *)
Theorem X12_bucket_for_ends_when_chain_ends
    (n : nat) (st : Store) (self : loc) (guild : Guild.t) :
  settles st self n ->
  is_Return_or_Raise (fst (GuildExperiment_bucket_for n self guild st)) = true
  /\ forall extra,
       GuildExperiment_bucket_for (extra + n) self guild st
       = GuildExperiment_bucket_for n self guild st.
Proof.
  intros Hsettles.
  pose proof (bucket_for_settles n st self guild Hsettles) as Hdone.
  split.
  - destruct (fst (GuildExperiment_bucket_for n self guild st));
      [reflexivity | reflexivity | contradiction].
  - intros extra. apply bucket_for_fuel_mono. exact Hdone.
Qed.

Lemma store_abc_settles : settles store_abc 0%nat 3.
Proof.
  apply (settles_dependency store_abc 0%nat 2 holdout_a_on_b 1%nat);
    [reflexivity | vm_compute; reflexivity |].
  apply (settles_dependency store_abc 1%nat 1 holdout_b_on_c 2%nat);
    [reflexivity | vm_compute; reflexivity |].
  apply settles_aa_mode. reflexivity.
Qed.

Lemma X12_bucket_for_ends_when_chain_ends_witness :
  is_Return_or_Raise (fst (GuildExperiment_bucket_for 3 0%nat (guild_of_id 5) store_abc))
  = true.
Proof.
  apply (X12_bucket_for_ends_when_chain_ends 3 store_abc 0%nat (guild_of_id 5)).
  exact store_abc_settles.
Defined.

(** ** GuildExperiment.guilds_for *)

(** X13: the guilds that [guilds_for] returns are guilds of the list it
    was given, in the order of that list, none twice unless it was there
    twice. *)
Theorem X13_guilds_for_sublist
    (fuel : nat) (self : loc) (bucket : Z) (guilds : list Guild.t) :
  forall (st : Store) (found : list Guild.t),
    fst (GuildExperiment_guilds_for fuel self bucket guilds st) = Return found ->
    sublist found guilds.
Proof.
  induction guilds as [|x guilds IH]; intros st found; cbn [GuildExperiment_guilds_for].
  - intros [= <-]. constructor.
  - destruct (GuildExperiment_bucket_for fuel self x st) as [[b| |] st1];
      try discriminate.
    specialize (IH st1).
    destruct (GuildExperiment_guilds_for fuel self bucket guilds st1) as [[rest| |] st2];
      cbn [fst mbind result_bind] in *; try discriminate.
    intros [= <-]. specialize (IH rest eq_refl).
    destruct (b =? bucket); [apply sublist_skip | apply sublist_cons]; exact IH.
Qed.

Lemma X13_guilds_for_sublist_witness :
  sublist [guild_of_id 42] [guild_of_id 99; guild_of_id 42; guild_of_id 7].
Proof.
  apply (X13_guilds_for_sublist 1 0%nat 7
           [guild_of_id 99; guild_of_id 42; guild_of_id 7] store_7_3).
  vm_compute. reflexivity.
Defined.

(** X14: for an experiment in A/A mode [guilds_for] gives every guild to
    bucket -1 and none to any other bucket, without error and without
    touching the store, whether or not the name is set. *)
Theorem X14_guilds_for_aa_mode
    (fuel : nat) (self : loc) (bucket : Z) (guilds : list Guild.t) (st : Store) :
  GuildExperiment.aa_mode (deref st self) = true ->
  GuildExperiment_guilds_for (S fuel) self bucket guilds st
  = (Return (if bucket =? -1 then guilds else []), st).
Proof.
  intros Haa. induction guilds as [|x guilds IH]; cbn [GuildExperiment_guilds_for].
  - destruct (bucket =? -1); reflexivity.
  - rewrite (bucket_for_aa_mode fuel self x st Haa), IH. cbn [mbind result_bind].
    rewrite Z.eqb_sym. destruct (bucket =? -1); reflexivity.
Qed.

Lemma X14_guilds_for_aa_mode_witness :
  GuildExperiment_guilds_for 1 2%nat (-1) [guild_of_id 1; guild_of_id 2] store_abc
  = (Return [guild_of_id 1; guild_of_id 2], store_abc).
Proof.
  apply (X14_guilds_for_aa_mode 0 2%nat (-1) [guild_of_id 1; guild_of_id 2] store_abc).
  reflexivity.
Defined.

(** X15: for an experiment that is not in A/A mode, has no holdout and has
    no name, [guilds_for] raises the name-required error as soon as there
    is one guild to look at, and returns the empty list without any error
    when there is none. *)
Theorem X15_guilds_for_unnamed
    (fuel : nat) (self : loc) (bucket : Z) (guilds : list Guild.t) (st : Store) :
  GuildExperiment.aa_mode (deref st self) = false ->
  GuildExperiment.holdout (deref st self) = None ->
  truthy_str (GuildExperiment._name (deref st self)) = false ->
  GuildExperiment_guilds_for (S fuel) self bucket guilds st
  = (match guilds with
     | [] => Return []
     | _ :: _ => Raise ValueError_name_unset
     end, st).
Proof.
  intros Haa Hholdout Hname. destruct guilds as [|x guilds]; [reflexivity|].
  cbn [GuildExperiment_guilds_for].
  rewrite GuildExperiment_bucket_for_S, Haa, Hholdout. cbv zeta beta iota.
  unfold bucket_for_tail. rewrite (result_for_name_unset _ x Hname). reflexivity.
Qed.

Lemma X15_guilds_for_unnamed_witness :
  GuildExperiment_guilds_for 1 0%nat 3 [guild_of_id 1] empty_store
  = (Raise ValueError_name_unset, empty_store)
  /\ GuildExperiment_guilds_for 1 0%nat 3 [] empty_store = (Return [], empty_store).
Proof.
  split.
  - apply (X15_guilds_for_unnamed 0 0%nat 3 [guild_of_id 1] empty_store); reflexivity.
  - apply (X15_guilds_for_unnamed 0 0%nat 3 [] empty_store); reflexivity.
Defined.

(** X16: when every experiment of the registry has its name and
    [bucket_for] returns for each guild of the list, [guilds_for] returns
    exactly the guilds whose [bucket_for] is the bucket asked for, and
    leaves the store as it was; so each guild is found under its own bucket
    and under no other. *)
Theorem X16_guilds_for_filters
    (fuel : nat) (self : loc) (bucket : Z) (guilds : list Guild.t) (st : Store) :
  all_named st ->
  (forall x, x ∈ guilds ->
             exists b, fst (GuildExperiment_bucket_for fuel self x st) = Return b) ->
  GuildExperiment_guilds_for fuel self bucket guilds st
  = (Return (List.filter (has_bucket fuel self st bucket) guilds), st)
  /\ (forall x,
        x ∈ List.filter (has_bucket fuel self st bucket) guilds
        <-> x ∈ guilds
            /\ fst (GuildExperiment_bucket_for fuel self x st) = Return bucket).
Proof.
  intros Hnamed Hreturns. split.
  - induction guilds as [|x guilds IH]; cbn [GuildExperiment_guilds_for List.filter];
      [reflexivity|].
    destruct (Hreturns x) as [b Hb]; [left|].
    pose proof (bucket_for_all_named fuel self x st Hnamed) as Hst.
    unfold has_bucket at 1. rewrite Hb.
    destruct (GuildExperiment_bucket_for fuel self x st) as [r st1].
    cbn [fst snd] in *. subst r st1.
    rewrite IH by (intros y Hy; apply Hreturns; right; exact Hy).
    cbn [mbind result_bind]. destruct (b =? bucket); reflexivity.
  - intros x. rewrite list_elem_of_In, filter_In, <- list_elem_of_In.
    unfold has_bucket. split.
    + intros [Hin Hb]. split; [exact Hin|].
      destruct (fst (GuildExperiment_bucket_for fuel self x st)) as [b| |];
        try discriminate.
      apply Z.eqb_eq in Hb. congruence.
    + intros [Hin ->]. split; [exact Hin | apply Z.eqb_refl].
Qed.

Lemma store_7_3_all_named : all_named store_7_3.
Proof.
  intros key l Hreg.
  change (guild_experiments store_7_3) with ({[ 4073051605 := 0%nat ]} : gmap Z nat) in Hreg.
  apply lookup_singleton_Some in Hreg. destruct Hreg as [_ <-]. reflexivity.
Qed.

Lemma X16_guilds_for_filters_witness :
  GuildExperiment_guilds_for 1 0%nat 3 [guild_of_id 99; guild_of_id 42] store_7_3
  = (Return (List.filter (has_bucket 1 0%nat store_7_3 3) [guild_of_id 99; guild_of_id 42]),
     store_7_3).
Proof.
  apply (X16_guilds_for_filters 1 0%nat 3 [guild_of_id 99; guild_of_id 42] store_7_3).
  - exact store_7_3_all_named.
  - intros x Hx.
    apply elem_of_cons in Hx. destruct Hx as [-> | Hx];
      [exists 3; vm_compute; reflexivity|].
    apply elem_of_cons in Hx. destruct Hx as [-> | Hx];
      [exists 7; vm_compute; reflexivity|].
    inversion Hx.
Defined.

(** ** Names, positions and string conversion *)

(** X17: [result_for] raises the name-required error exactly when
    [str(experiment)] is empty; otherwise it returns the hash of
    ["<str(experiment)>:<guild id>"] modulo 10000, a position from 0 to
    9999. *)
Theorem X17_result_for_and_str (self : GuildExperiment.t) (guild : Guild.t) :
  (GuildExperiment_result_for self guild = Raise ValueError_name_unset
   <-> GuildExperiment___str__ self = ""%string)
  /\ (GuildExperiment___str__ self <> ""%string ->
      GuildExperiment_result_for self guild
      = Return (murmurhash32 (fmt_key (GuildExperiment___str__ self) (Guild.id guild))
                mod 10000)
      /\ 0 <= murmurhash32 (fmt_key (GuildExperiment___str__ self) (Guild.id guild))
              mod 10000 < 10000).
Proof.
  unfold GuildExperiment_result_for, GuildExperiment___str__, GuildExperiment_name.
  destruct (GuildExperiment._name self) as [name|].
  - destruct (truthy_str (Some name)) eqn:Htruthy; cbn [negb].
    + apply truthy_str_true in Htruthy. destruct Htruthy as (v & [= <-] & Hne).
      split; [split; [discriminate | contradiction]|].
      intros _. split; [reflexivity|]. apply Z.mod_pos_bound. lia.
    + split; [split; reflexivity | contradiction].
  - split; [split; reflexivity | contradiction].
Qed.

Lemma X17_result_for_and_str_witness :
  GuildExperiment_result_for experiment_7_3 (guild_of_id 99) = Return 8820.
Proof.
  destruct (X17_result_for_and_str experiment_7_3 (guild_of_id 99)) as [_ Hnamed].
  destruct Hnamed as [Hresult _]; [discriminate|].
  rewrite Hresult. vm_compute. reflexivity.
Defined.

(** X18: the name setter of a user experiment validates like the one of a
    guild experiment: for a non-empty string it raises the name-mismatch
    error exactly when the string's hash differs from [hash]; otherwise it
    stores the string, which [name] and [str()] then return, changes no
    other field, and accepts the same string again. *)
Theorem X18_user_name_setter (self : UserExperiment.t) (s : string) :
  s <> ""%string ->
  (UserExperiment_name_setter self (Some s) = Raise ValueError_name_mismatch
   <-> murmurhash32 s <> UserExperiment.hash self)
  /\ (murmurhash32 s = UserExperiment.hash self ->
      UserExperiment_name_setter self (Some s)
      = Return (UserExperiment.with_name self (Some s))
      /\ UserExperiment_name (UserExperiment.with_name self (Some s)) = Some s
      /\ UserExperiment___str__ (UserExperiment.with_name self (Some s)) = s
      /\ UserExperiment_name_setter (UserExperiment.with_name self (Some s)) (Some s)
         = Return (UserExperiment.with_name self (Some s))).
Proof.
  intros Hne.
  assert (Hset : forall u : UserExperiment.t,
             UserExperiment_name_setter u (Some s)
             = if murmurhash32 s =? UserExperiment.hash u
               then Return (UserExperiment.with_name u (Some s))
               else Raise ValueError_name_mismatch).
  { intros u. unfold UserExperiment_name_setter.
    rewrite (truthy_str_nonempty _ Hne). cbn [negb].
    destruct (murmurhash32 s =? UserExperiment.hash u); reflexivity. }
  split.
  - rewrite Hset. destruct (Z.eqb_spec (murmurhash32 s) (UserExperiment.hash self)).
    + split; [discriminate | contradiction].
    + split; [intros _; assumption | reflexivity].
  - intros Heq. rewrite !Hset. cbn [UserExperiment.with_name UserExperiment.hash].
    rewrite Heq, Z.eqb_refl.
    split; [reflexivity|]. split; [reflexivity|]. split; [|reflexivity].
    unfold UserExperiment___str__. cbn [UserExperiment.with_name UserExperiment._name].
    rewrite (truthy_str_nonempty _ Hne). reflexivity.
Qed.

Lemma X18_user_name_setter_witness :
  UserExperiment_name_setter user_assigned_3 (Some "exp"%string)
  = Return (UserExperiment.with_name user_assigned_3 (Some "exp"%string))
  /\ UserExperiment_name_setter user_assigned_3 (Some "dep"%string)
     = Raise ValueError_name_mismatch.
Proof.
  split.
  - destruct (X18_user_name_setter user_assigned_3 "exp") as [_ Hok]; [discriminate|].
    destruct Hok as [Hset _]; [vm_compute; reflexivity|]. exact Hset.
  - apply (X18_user_name_setter user_assigned_3 "dep");
      [discriminate | vm_compute; discriminate].
Defined.

(** ** Objects as the constructors build them *)

(** X19: every population that [GuildExperiment.__init__] builds, in
    [populations] and in [overrides_formatted], refers back to the
    experiment under construction; so with that experiment in the store,
    asking one of its populations for a bucket without a position takes
    the position from that experiment's [result_for]. *)
Theorem X19_populations_refer_back
    (st : Store) (self : loc) (data : Payload.guild_experiment)
    (population : ExperimentPopulation.t) (guild : Guild.t) :
  deref st self = GuildExperiment___init__ self data ->
  population ∈ concat (GuildExperiment.overrides_formatted (deref st self))
               ++ GuildExperiment.populations (deref st self) ->
  ExperimentPopulation.experiment population = self
  /\ ExperimentPopulation_bucket_for st population guild None
     = (position ← GuildExperiment_result_for (deref st self) guild;
        ExperimentPopulation_bucket_for st population guild (Some position)).
Proof.
  intros Hinit Hin.
  assert (Hback : ExperimentPopulation.experiment population = self).
  { rewrite Hinit in Hin. cbn [GuildExperiment___init__ GuildExperiment.populations
                                 GuildExperiment.overrides_formatted] in Hin.
    apply elem_of_app in Hin. destruct Hin as [Hin | Hin].
    - apply list_elem_of_In, in_concat in Hin. destruct Hin as (group & Hgroup & Hin).
      apply in_map_iff in Hgroup. destruct Hgroup as (payloads & <- & _).
      apply in_map_iff in Hin. destruct Hin as ([rollouts filters] & <- & _).
      reflexivity.
    - apply list_elem_of_fmap in Hin. destruct Hin as ([rollouts filters] & -> & _).
      reflexivity. }
  split; [exact Hback|].
  unfold ExperimentPopulation_bucket_for. rewrite Hback.
  destruct (GuildExperiment_result_for (deref st self) guild); reflexivity.
Qed.

Lemma X19_populations_refer_back_witness :
  ExperimentPopulation_bucket_for store_payload_exp
    (ExperimentPopulation___init__ 0%nat
       ([(1, [{| Payload.s := 0; Payload.e := 9999 |}])],
        [ExperimentFilter.id_range None 100]))
    (guild_of_id 5) None
  = Return 1.
Proof.
  destruct (X19_populations_refer_back store_payload_exp 0%nat payload_exp
              (ExperimentPopulation___init__ 0%nat
                 ([(1, [{| Payload.s := 0; Payload.e := 9999 |}])],
                  [ExperimentFilter.id_range None 100]))
              (guild_of_id 5)) as [_ Hanswer].
  - vm_compute. reflexivity.
  - apply elem_of_app. right. vm_compute. left.
  - rewrite Hanswer. vm_compute. reflexivity.
Defined.

(** X20: [GuildExperiment.__init__] takes the name from the payload as it
    is: when the payload's name does not hash to the payload's hash, the
    new object carries that name, and the setter refuses the very same
    name for it. *)
Theorem X20_init_does_not_validate_name
    (self : loc) (data : Payload.guild_experiment) (name : string) :
  Payload.hash_key data = Some name ->
  name <> ""%string ->
  murmurhash32 name <> Payload.hash data ->
  GuildExperiment_name (GuildExperiment___init__ self data) = Some name
  /\ GuildExperiment_name_setter (GuildExperiment___init__ self data) (Some name)
     = Raise ValueError_name_mismatch.
Proof.
  intros Hname Hne Hhash. split; [exact Hname|].
  apply name_setter_mismatch; assumption.
Qed.

Lemma X20_init_does_not_validate_name_witness :
  GuildExperiment_name (GuildExperiment___init__ 0%nat payload_misnamed) = Some "dep"%string
  /\ GuildExperiment_name_setter (GuildExperiment___init__ 0%nat payload_misnamed)
       (Some "dep"%string)
     = Raise ValueError_name_mismatch.
Proof.
  apply (X20_init_does_not_validate_name 0%nat payload_misnamed "dep");
    [reflexivity | discriminate | vm_compute; discriminate].
Defined.

(** X21: a user experiment comes out of [__init__] without a name,
    whatever the payload: [str()] of it is empty, and [result] returns the
    payload's position when that is not zero and raises the name-required
    error otherwise. *)
Theorem X21_fresh_user_experiment (st : Store) (data : Payload.assignment) :
  UserExperiment_name (UserExperiment___init__ data) = None
  /\ UserExperiment___str__ (UserExperiment___init__ data) = ""%string
  /\ UserExperiment_result st (UserExperiment___init__ data)
     = match Payload.a_hash_result data with
       | Some position =>
           if position =? 0 then Raise ValueError_name_unset else Return position
       | None => Raise ValueError_name_unset
       end.
Proof.
  split; [reflexivity|]. split; [reflexivity|].
  unfold UserExperiment_result.
  cbn [UserExperiment___init__ UserExperiment._result].
  destruct (Payload.a_hash_result data) as [position|]; [|reflexivity].
  cbn [truthy_int]. destruct (position =? 0); reflexivity.
Qed.

(** ** The holdout's lookup *)

(** X22: when the registry has an experiment under the hash of a holdout's
    non-empty name, the lookup returns it and leaves it named: with its own
    name if it had one, with the holdout's name otherwise.  A second lookup
    returns the same experiment and changes nothing. *)
Theorem X22_holdout_lookup
    (self : HoldoutExperiment.t) (st : Store) (l : loc) :
  guild_experiments st !! murmurhash32 (HoldoutExperiment.name self) = Some l ->
  HoldoutExperiment.name self <> ""%string ->
  let st1 := snd (HoldoutExperiment_experiment self st) in
  fst (HoldoutExperiment_experiment self st) = Some l
  /\ truthy_str (GuildExperiment._name (deref st1 l)) = true
  /\ GuildExperiment._name (deref st1 l)
     = (if truthy_str (GuildExperiment._name (deref st l))
        then GuildExperiment._name (deref st l)
        else Some (HoldoutExperiment.name self))
  /\ HoldoutExperiment_experiment self st1 = (Some l, st1).
Proof.
  intros Hreg Hne st1. unfold st1. clear st1.
  rewrite (experiment_found _ _ _ Hreg). cbn [fst snd].
  split; [reflexivity|].
  assert (Hname : GuildExperiment._name
                    (deref (backfill_name st l (HoldoutExperiment.name self)) l)
                  = if truthy_str (GuildExperiment._name (deref st l))
                    then GuildExperiment._name (deref st l)
                    else Some (HoldoutExperiment.name self))
    by apply backfill_name_deref.
  split; [|split; [exact Hname|]].
  - rewrite Hname. destruct (truthy_str (GuildExperiment._name (deref st l))) eqn:Htruthy;
      [exact Htruthy | apply truthy_str_nonempty; exact Hne].
  - assert (Hreg1 : guild_experiments (backfill_name st l (HoldoutExperiment.name self))
                    !! murmurhash32 (HoldoutExperiment.name self) = Some l).
    { rewrite (backfilled_registry _ _ (backfill_name_backfilled _ _ _ Hreg)). exact Hreg. }
    rewrite (experiment_found _ _ _ Hreg1), (backfill_name_idempotent _ _ _ Hne).
    reflexivity.
Qed.

Lemma X22_holdout_lookup_witness :
  GuildExperiment._name (deref (snd (HoldoutExperiment_experiment holdout_a_on_b store_abc))
                           1%nat)
  = Some "b"%string.
Proof.
  destruct (X22_holdout_lookup holdout_a_on_b store_abc 1%nat) as (_ & _ & Hname & _);
    [vm_compute; reflexivity | discriminate |].
  rewrite Hname. vm_compute. reflexivity.
Defined.

(** X23: in a store whose registry files every experiment under its own
    hash, the backfill of an unnamed experiment by a holdout's lookup
    writes what the name setter would have written: the setter, given the
    holdout's name, accepts it and returns the object that the lookup
    leaves in the store. *)
Theorem X23_backfill_is_a_valid_set
    (self : HoldoutExperiment.t) (st : Store) (l : loc) :
  registry_keyed st ->
  guild_experiments st !! murmurhash32 (HoldoutExperiment.name self) = Some l ->
  HoldoutExperiment.name self <> ""%string ->
  truthy_str (GuildExperiment._name (deref st l)) = false ->
  GuildExperiment_name_setter (deref st l) (Some (HoldoutExperiment.name self))
  = Return (deref (snd (HoldoutExperiment_experiment self st)) l).
Proof.
  intros Hkeyed Hreg Hne Hunnamed.
  rewrite (experiment_found _ _ _ Hreg). cbn [snd].
  unfold backfill_name. rewrite Hunnamed, deref_with_objects_insert.
  destruct (decide (l = l)) as [_|]; [|congruence].
  apply name_setter_match; [exact Hne|].
  symmetry. apply Hkeyed. exact Hreg.
Qed.

Lemma X23_backfill_is_a_valid_set_witness :
  GuildExperiment_name_setter experiment_b (Some "b"%string)
  = Return (deref (snd (HoldoutExperiment_experiment holdout_a_on_b store_abc)) 1%nat).
Proof.
  apply (X23_backfill_is_a_valid_set holdout_a_on_b store_abc 1%nat).
  - exact store_abc_registry_keyed.
  - vm_compute. reflexivity.
  - discriminate.
  - reflexivity.
Defined.

(** ** Overrides and membership *)

Lemma override_names_contains (guild : Guild.t) (override : ExperimentOverride.t) :
  override_names guild override
  <-> ExperimentOverride___contains__ override (Guild.id guild) = true
      \/ exists owner,
           Guild.owner_id guild = Some owner
           /\ ExperimentOverride___contains__ override owner = true.
Proof.
  unfold override_names, ExperimentOverride___contains__.
  rewrite bool_decide_eq_true, list_elem_of_fmap. split.
  - intros [Hid | (owner & Howner & Hin)]; [left; exact Hid|].
    right. exists owner. split; [exact Howner | apply bool_decide_eq_true_2; exact Hin].
  - intros [Hid | (owner & Howner & Hin)]; [left; exact Hid|].
    right. exists owner. apply bool_decide_eq_true_1 in Hin.
    split; [exact Howner | exact Hin].
Qed.

Lemma find_first_split {A : Type} (P : A -> bool) (l : list A) (x : A) :
  List.find P l = Some x ->
  exists pre post,
    l = pre ++ x :: post /\ (forall y, y ∈ pre -> P y = false) /\ P x = true.
Proof.
  induction l as [|a l IH]; cbn [List.find]; [discriminate|].
  destruct (P a) eqn:Ha.
  - intros [= <-]. exists [], l. split; [reflexivity|].
    split; [intros y Hy; inversion Hy | exact Ha].
  - intros Hfind. destruct (IH Hfind) as (pre & post & -> & Hpre & Hx).
    exists (a :: pre), post. split; [reflexivity|]. split; [|exact Hx].
    intros y Hy. apply elem_of_cons in Hy. destruct Hy as [-> | Hy];
      [exact Ha | apply Hpre; exact Hy].
Qed.

(** X24: [bucket_for] applies an override to a guild when [guild.id in
    override] or when the id of the guild's owner is in the override.  For
    a named experiment that is not in A/A mode and has no holdout: if one
    of its overrides holds the guild's id or its owner's id, [bucket_for]
    returns the bucket of the first override of the list that does (no
    override before it in the list holds either id), and leaves the store
    alone. *)
Theorem X24_override_membership
    (fuel : nat) (self : loc) (guild : Guild.t) (st : Store)
    (override : ExperimentOverride.t) :
  GuildExperiment.aa_mode (deref st self) = false ->
  GuildExperiment.holdout (deref st self) = None ->
  truthy_str (GuildExperiment._name (deref st self)) = true ->
  override ∈ GuildExperiment.overrides (deref st self) ->
  override_holds guild override ->
  exists pre first post,
    GuildExperiment.overrides (deref st self) = pre ++ first :: post
    /\ (forall earlier, earlier ∈ pre -> ~ override_holds guild earlier)
    /\ override_holds guild first
    /\ GuildExperiment_bucket_for (S fuel) self guild st
       = (Return (ExperimentOverride.bucket first), st).
Proof.
  intros Haa Hholdout Hname Hin Hholds.
  apply override_names_contains in Hholds.
  destruct (List.find (fun o => bool_decide (override_names guild o))
              (GuildExperiment.overrides (deref st self))) as [first|] eqn:Hfind.
  - destruct (find_first_split _ _ _ Hfind) as (pre & post & Hsplit & Hpre & Hfirst).
    exists pre, first, post. split; [exact Hsplit|]. split; [|split].
    + intros earlier Hearlier Hheld. apply override_names_contains in Hheld.
      specialize (Hpre earlier Hearlier). cbv beta in Hpre.
      rewrite bool_decide_eq_false in Hpre. contradiction.
    + apply override_names_contains. apply bool_decide_eq_true_1 in Hfirst. exact Hfirst.
    + apply truthy_str_true in Hname. destruct Hname as (name & Hname & Hne).
      apply (override_wins fuel self guild st
               (murmurhash32 (fmt_key name (Guild.id guild)) mod 10000));
        try assumption.
      unfold GuildExperiment_result_for, GuildExperiment_name. rewrite Hname.
      rewrite (truthy_str_nonempty _ Hne). reflexivity.
  - exfalso.
    pose proof (find_none _ _ Hfind override (proj1 (list_elem_of_In _ _) Hin)) as Hnone.
    cbv beta in Hnone. rewrite bool_decide_eq_false in Hnone. contradiction.
Qed.

Lemma X24_override_membership_witness :
  GuildExperiment_bucket_for 1 0%nat (guild_of_id 42) store_7_8 = (Return 7, store_7_8).
Proof.
  destruct (X24_override_membership 0 0%nat (guild_of_id 42) store_7_8
              {| ExperimentOverride.bucket := 8; ExperimentOverride.ids := [42] |})
    as (pre & first & post & Hsplit & Hpre & _ & Hbucket).
  - reflexivity.
  - reflexivity.
  - reflexivity.
  - vm_compute. right. left.
  - left. reflexivity.
  - rewrite Hbucket. destruct pre as [|earlier pre].
    + injection Hsplit as <- _. reflexivity.
    + injection Hsplit as <- _. exfalso.
      apply (Hpre {| ExperimentOverride.bucket := 7; ExperimentOverride.ids := [42] |});
        [left | left; reflexivity].
Defined.

(** ** After the name has been unset *)








